(** * Ceilometer charm hooks: a shallow embedding of hooks/ceilometer_hooks.py

    The hook program is a sequence of calls into the charm-helper library,
    the operating system and the Juju relation store.  Its functions are
    embedded as computations in a small state-and-exception monad that
    records every external call in a trace; the answers of the outside
    world are supplied by a [World] record. *)

From Stdlib Require Import ZArith Lia Ascii.
From stdpp Require Import base strings gmap list fin_maps pretty.

Local Open Scope string_scope.
Local Open Scope list_scope.

(** ** Python built-ins used by the hooks *)

Module Py.

(** The double-quote character, used inside the resource parameter strings. *)
Definition dquote : string := String (Ascii.ascii_of_nat 34) EmptyString.

(** A character of the model is a code point below 256.  [c.isspace()]
    on those, the characters removed by [str.strip()] and separating the
    fields of [str.split()]: tab, line feed, vertical tab, form feed and
    carriage return (9 to 13), the file, group, record and unit
    separators (28 to 31), space (32), next line (133) and no-break
    space (160). *)
Definition is_space (c : ascii) : bool :=
  let n := nat_of_ascii c in
  ((Nat.leb 9 n && Nat.leb n 13) || (Nat.leb 28 n && Nat.leb n 32)
   || Nat.eqb n 133 || Nat.eqb n 160)%bool.

(** [s.lstrip()] *)
Fixpoint lstrip (s : string) : string :=
  match s with
  | EmptyString => EmptyString
  | String c s' => if is_space c then lstrip s' else s
  end.

(** [s.rstrip()]: a character is dropped when everything from it to the
    end of the string is whitespace. *)
Fixpoint rstrip (s : string) : string :=
  match s with
  | EmptyString => EmptyString
  | String c s' =>
      match rstrip s' with
      | EmptyString => if is_space c then EmptyString else String c EmptyString
      | r => String c r
      end
  end.

(** [s.strip()] *)
Definition strip (s : string) : string := rstrip (lstrip s).

(** [s.split()] with no separator: the maximal runs of non-whitespace
    characters, in order.  A character that is not whitespace is a field
    of its own when it is the last character or is followed by
    whitespace, and otherwise goes in front of the field that starts
    right after it. *)
Fixpoint split (s : string) : list string :=
  match s with
  | EmptyString => []
  | String c s' =>
      let rest := split s' in
      if is_space c then rest
      else
        match s' with
        | EmptyString => [String c EmptyString]
        | String d _ =>
            if is_space d then String c EmptyString :: rest
            else
              match rest with
              | w :: ws => String c w :: ws
              | [] => [String c EmptyString]
              end
        end
  end.

(** [old] is a prefix of [s]. *)
Fixpoint startswith (s old : string) : bool :=
  match old, s with
  | EmptyString, _ => true
  | String a old', String b s' => (Ascii.eqb a b && startswith s' old')%bool
  | String _ _, EmptyString => false
  end.

(** [sub in s] *)
Fixpoint contains (s sub : string) : bool :=
  match s with
  | EmptyString => startswith s sub
  | String _ s' => (startswith s sub || contains s' sub)%bool
  end.

(** [s.replace(old, new)] for a non-empty [old]: occurrences are replaced
    left to right without overlap; [skip] counts the characters of the
    occurrence just replaced that are still to be passed over. *)
Fixpoint replace_go (old new : string) (skip : nat) (s : string) : string :=
  match s with
  | EmptyString => EmptyString
  | String c s' =>
      match skip with
      | S k => replace_go old new k s'
      | O =>
          if startswith s old
          then new +:+ replace_go old new (String.length old - 1) s'
          else String c (replace_go old new 0 s')
      end
  end.

Definition replace (s old new : string) : string := replace_go old new 0 s.

(** [' '.join(l)] *)
Fixpoint join (sep : string) (l : list string) : string :=
  match l with
  | [] => EmptyString
  | [x] => x
  | x :: rest => x +:+ sep +:+ join sep rest
  end.

(** Index just after the last ['/'] of [p], as [p.rfind('/') + 1]. *)
Fixpoint after_last_slash (p : string) : nat :=
  match p with
  | EmptyString => 0
  | String c p' =>
      match after_last_slash p' with
      | O => if Ascii.eqb c "/" then 1 else 0
      | S n => S (S n)
      end
  end.

Fixpoint take (n : nat) (s : string) : string :=
  match n, s with
  | S k, String c s' => String c (take k s')
  | _, _ => EmptyString
  end.

Fixpoint drop (n : nat) (s : string) : string :=
  match n, s with
  | S k, String _ s' => drop k s'
  | _, _ => s
  end.

Fixpoint all_slashes (s : string) : bool :=
  match s with
  | EmptyString => true
  | String c s' => (Ascii.eqb c "/" && all_slashes s')%bool
  end.

(** [head.rstrip('/')] *)
Fixpoint rstrip_slash (s : string) : string :=
  match s with
  | EmptyString => EmptyString
  | String c s' =>
      match rstrip_slash s' with
      | EmptyString => if Ascii.eqb c "/" then EmptyString else String c EmptyString
      | r => String c r
      end
  end.

(** [os.path.basename] *)
Definition basename (p : string) : string := drop (after_last_slash p) p.

(** [os.path.dirname] *)
Definition dirname (p : string) : string :=
  let head := take (after_last_slash p) p in
  if all_slashes head then head else rstrip_slash head.

(** [str(x)] for a value that is a string or [None]. *)
Definition str_opt (o : option string) : string := default "None" o.

End Py.

(** ** Values, exceptions and external calls *)

(** Python values that cross the boundary between the hooks and their
    collaborators: configuration values and relation payloads. *)
Inductive value : Type :=
| VNone
| VBool (b : bool)
| VInt (z : Z)
| VStr (s : string)
| VList (l : list string)
| VDict (d : gmap string string).

#[global] Instance value_eq_dec : EqDecision value.
Proof. solve_decision. Defined.

(** Truth value of a Python object, as tested by [if x:]. *)
Definition truthy (v : value) : bool :=
  match v with
  | VNone => false
  | VBool b => b
  | VInt z => negb (Z.eqb z 0)
  | VStr s => negb (String.eqb s "")
  | VList l => match l with [] => false | _ => true end
  | VDict d => negb (bool_decide (d = ∅))
  end.

(** Truth value of a string-or-[None]. *)
Definition truthy_opt (o : option string) : bool :=
  match o with
  | None => false
  | Some s => negb (String.eqb s "")
  end.

Inductive exn : Type :=
| UnregisteredHookError (hook_name : string)
| CalledProcessError (returncode : Z) (cmd : list string)
| OSError (what : string)
| KeyError (key : string)
| ValueError (what : string)
| AttributeError (what : string)
| TypeError (what : string)
| Exception (what : string).

#[global] Instance exn_eq_dec : EqDecision exn.
Proof. solve_decision. Defined.

(** What running an external command gives: an exit status, or no process
    at all (the executable could not be started). *)
Inductive cmd_result : Type :=
| Exited (returncode : Z)
| NotStarted.

(** The three endpoint kinds of [charmhelpers.contrib.openstack.ip]. *)
Inductive endpoint_type : Type := PUBLIC | INTERNAL | ADMIN.

#[global] Instance endpoint_type_eq_dec : EqDecision endpoint_type.
Proof. solve_decision. Defined.

(** Every call that leaves the hook module and touches the machine, the
    relation store or the charm's own helper modules, with its arguments. *)
Inductive call : Type :=
(* charmhelpers.core.hookenv *)
| c_log (msg : string)
| c_status_set (workload_state message : string)
| c_open_port (port : Z)
| c_relation_set (relation_id : option string) (settings : gmap string value)
(* charmhelpers.fetch *)
| c_filter_installed_packages (pkgs : list string)
| c_apt_update
| c_apt_install (pkgs : list string)
(* charmhelpers.core.host *)
| c_service_restart (svc : string)
| c_service_stop (svc : string)
| c_service_start (svc : string)
| c_mkdir (path : string)
| c_init_is_systemd
(* charmhelpers.contrib.openstack *)
| c_configure_installation_source (origin : value)
| c_os_release (pkg : string)
| c_openstack_upgrade_available (pkg : string)
| c_is_unit_paused_set
| c_restart_on_change_snapshot
| c_restart_on_change_compare
| c_update_dns_ha_resource_params
    (relation_id : option string) (resources resource_params : gmap string string)
(* charmhelpers.contrib.hahelpers, network, peerstorage *)
| c_get_hacluster_config
| c_get_iface_for_address (address : string)
| c_get_netmask_for_address (address : string)
| c_peer_retrieve (key : string)
| c_peer_store (key value : string)
(* charmhelpers.contrib.charmsupport.nrpe *)
| c_get_nagios_hostname
| c_get_nagios_unit_name
| c_copy_nrpe_checks
| c_add_init_service_checks (hostname : string) (svcs : list string) (unit_name : string)
| c_add_haproxy_checks (hostname unit_name : string)
| c_nrpe_write (hostname : string)
(* charmhelpers.payload.execd, charmhelpers.contrib.hardening *)
| c_execd_preinstall
| c_harden
(* ceilometer_utils *)
| c_disable_package_apache_site
| c_get_packages
| c_run_in_apache
| c_services
| c_get_ceilometer_context
| c_get_shared_secret
| c_set_shared_secret (secret : string)
| c_do_openstack_upgrade
| c_assess_status
| c_reload_systemd
| c_write_all
| c_complete_contexts
(* subprocess, os, shutil, files *)
| c_check_call (cmd : list string)
| c_subprocess_call (cmd : list string)
| c_isdir (path : string)
| c_isfile (path : string)
| c_exists (path : string)
| c_makedirs (path : string)
| c_remove (path : string)
| c_chmod (path : string) (mode : Z)
| c_copy (src dst : string)
| c_read_file (path : string)
| c_uuid4.

#[global] Instance call_eq_dec : EqDecision call.
Proof. solve_decision. Defined.

(** ** The unit's state and the outside world *)

(** What the hooks change and read back: the record of calls made so far,
    the local shared-secret file, the peer storage of the cluster relation
    and the settings this unit has published on each relation. *)
Record State : Type := mkState {
  trace : list call;
  secret_file : option string;
  peer_db : gmap string string;
  relations : gmap string (gmap string value)
}.

(** The answers of everything outside the hook module.  Constants imported
    from modules that are not part of the hook file come first; then the
    snapshot Juju hands to one hook run (configuration, relation data,
    leadership), which is fixed during the run; then the machine, whose
    answers may depend on the calls made so far. *)
Record World : Type := mkWorld {
  (* constants of ceilometer_utils, ceilometer_contexts and charmhelpers *)
  CEILOMETER_DB : string;
  CEILOMETER_SERVICE : string;
  CEILOMETER_ROLE : string;
  CEILOMETER_API_SYSTEMD_CONF : string;
  CEILOMETER_PORT : Z;
  ADDRESS_TYPES : list string;
  OPENSTACK_RELEASES : list string;
  w_b64encode : string -> string;
  (* the hook's snapshot *)
  w_relation_id : option string;
  w_config : string -> value;
  w_relation_ids : string -> list string;
  w_related_units : string -> list string;
  w_relation_get : string -> option string -> option string -> option string;
  w_relation_get_all : gmap string string;
  w_is_elected_leader : string -> bool;
  w_lsb_release : gmap string string;
  w_get_relation_ip : string -> value -> option string;
  w_canonical_url : endpoint_type -> string;
  (* the machine *)
  w_fault : list call -> call -> option exn;
  w_run : list call -> list string -> cmd_result;
  w_complete_contexts : list call -> list string;
  w_is_unit_paused_set : list call -> bool;
  w_changed_services : list call -> list string;
  w_os_release : list call -> string -> string;
  w_get_packages : list call -> list string;
  w_filter_installed_packages : list call -> list string -> list string;
  w_init_is_systemd : list call -> bool;
  w_run_in_apache : list call -> bool;
  w_openstack_upgrade_available : list call -> string -> bool;
  w_isdir : list call -> string -> bool;
  w_isfile : list call -> string -> bool;
  w_exists : list call -> string -> bool;
  w_read_file : list call -> string -> string;
  w_uuid4 : list call -> string;
  w_get_hacluster_config : list call -> gmap string value;
  w_get_iface_for_address : list call -> string -> option string;
  w_get_netmask_for_address : list call -> string -> option string;
  w_update_dns_ha :
    list call -> option string -> gmap string string -> gmap string string ->
    gmap string string * gmap string string * list (gmap string value);
  w_get_ceilometer_context : list call -> gmap string value;
  w_services : list call -> list string;
  w_get_nagios_hostname : list call -> string;
  w_get_nagios_unit_name : list call -> string
}.

(** ** The monad of hook computations *)

Inductive outcome (A : Type) : Type :=
| Ret (a : A)
| Raise (e : exn).
Arguments Ret {A} a.
Arguments Raise {A} e.

Definition M (A : Type) : Type := World -> State -> outcome A * State.

Definition ret {A : Type} (a : A) : M A := fun _ st => (Ret a, st).

Definition bind {A B : Type} (m : M A) (k : A -> M B) : M B :=
  fun w st =>
    match m w st with
    | (Ret a, st') => k a w st'
    | (Raise e, st') => (Raise e, st')
    end.

Definition raise {A : Type} (e : exn) : M A := fun _ st => (Raise e, st).

(** [try: m except <the exceptions h selects>: h e] *)
Definition try_except {A : Type} (m : M A) (h : exn -> option (M A)) : M A :=
  fun w st =>
    match m w st with
    | (Ret a, st') => (Ret a, st')
    | (Raise e, st') =>
        match h e with
        | Some handler => handler w st'
        | None => (Raise e, st')
        end
    end.

Declare Scope hook_scope.
Delimit Scope hook_scope with hook.
Notation "x <- m ;; k" := (bind m (fun x => k))
  (at level 100, m at next level, right associativity) : hook_scope.
Notation "m ;; k" := (bind m (fun _ => k))
  (at level 100, right associativity) : hook_scope.
Local Open Scope hook_scope.

Definition record_call (c : call) (st : State) : State :=
  mkState (trace st ++ [c]) (secret_file st) (peer_db st) (relations st).

(** A call that is recorded and cannot fail. *)
Definition emit (c : call) : M unit := fun _ st => (Ret tt, record_call c st).

(** A call that is recorded and raises when the world says so. *)
Definition fallible (c : call) : M unit :=
  fun w st =>
    match w_fault w (trace st) c with
    | Some e => (Raise e, record_call c st)
    | None => (Ret tt, record_call c st)
    end.

(** Reading the hook's snapshot. *)
Definition snapshot {A : Type} (f : World -> A) : M A := fun w st => (Ret (f w), st).

(** A recorded query of the machine; the answer is the world's at the
    moment of the call. *)
Definition query {A : Type} (c : call) (f : World -> list call -> A) : M A :=
  fun w st => (Ret (f w (trace st)), record_call c st).

(** A recorded query that may raise instead of answering. *)
Definition fallible_query {A : Type} (c : call) (f : World -> list call -> A) : M A :=
  fun w st =>
    match w_fault w (trace st) c with
    | Some e => (Raise e, record_call c st)
    | None => (Ret (f w (trace st)), record_call c st)
    end.

(** [for x in l: body x] *)
Fixpoint for_each {A : Type} (l : list A) (body : A -> M unit) : M unit :=
  match l with
  | [] => ret tt
  | x :: rest => body x ;; for_each rest body
  end.

(** A [for] loop that updates local variables, held in [acc]. *)
Fixpoint for_fold {A S : Type} (l : list A) (acc : S) (body : S -> A -> M S) : M S :=
  match l with
  | [] => ret acc
  | x :: rest => acc' <- body acc x ;; for_fold rest acc' body
  end.

(** [d[k]] on a dictionary. *)
Definition getitem {V : Type} (d : gmap string V) (k : string) : M V :=
  match d !! k with
  | Some v => ret v
  | None => raise (KeyError k)
  end.

(** ** The collaborators imported by the hook file *)

(** *** charmhelpers.core.hookenv *)

Definition log (msg : string) : M unit := emit (c_log msg).
Definition status_set (workload_state message : string) : M unit :=
  emit (c_status_set workload_state message).
Definition open_port (port : Z) : M unit := fallible (c_open_port port).
Definition config (key : string) : M value := snapshot (fun w => w_config w key).
Definition relation_ids (reltype : string) : M (list string) :=
  snapshot (fun w => w_relation_ids w reltype).
Definition related_units (relid : string) : M (list string) :=
  snapshot (fun w => w_related_units w relid).
Definition relation_get (attribute : string) (unit_name rid : option string)
  : M (option string) :=
  snapshot (fun w => w_relation_get w attribute unit_name rid).
Definition relation_get_all : M (gmap string string) := snapshot w_relation_get_all.

(** Modelled from the spec: the Relation Store keeps, per relation, the
    latest value this unit has written under each key; a write overwrites
    the keys it gives and leaves the others as they are. *)
Definition apply_settings (settings old : gmap string value) : gmap string value :=
  settings ∪ old.

Definition publish (rid : string) (settings : gmap string value) (st : State) : State :=
  mkState (trace st) (secret_file st) (peer_db st)
          (<[rid := apply_settings settings (default ∅ (relations st !! rid))]>
             (relations st)).

(** The relation a write goes to: the one named, or with no relation id
    the relation of the running hook, if the hook is a relation hook. *)
Definition target_relation (w : World) (relation_id : option string) : option string :=
  match relation_id with
  | Some rid => Some rid
  | None => w_relation_id w
  end.

(** [relation_set(relation_id=..., relation_settings=..., **kwargs)]; the
    call fails when there is no relation to write to. *)
Definition relation_set (relation_id : option string) (settings : gmap string value)
  : M unit :=
  emit (c_relation_set relation_id settings) ;;
  fun w st =>
    match target_relation w relation_id with
    | Some rid => (Ret tt, publish rid settings st)
    | None => (Raise (CalledProcessError 2 ["relation-set"]), st)
    end.

(** *** charmhelpers.fetch, charmhelpers.core.host *)

Definition filter_installed_packages (pkgs : list string) : M (list string) :=
  fallible_query (c_filter_installed_packages pkgs)
                 (fun w h => w_filter_installed_packages w h pkgs).
Definition apt_update : M unit := fallible c_apt_update.
Definition apt_install (pkgs : list string) : M unit := fallible (c_apt_install pkgs).
Definition service_restart (svc : string) : M unit := emit (c_service_restart svc).
Definition lsb_release : M (gmap string string) := snapshot w_lsb_release.
Definition mkdir (path : string) : M unit := fallible (c_mkdir path).
Definition init_is_systemd : M bool := query c_init_is_systemd w_init_is_systemd.

(** *** charmhelpers.contrib.openstack *)

Definition configure_installation_source (origin : value) : M unit :=
  fallible (c_configure_installation_source origin).
Definition os_release (pkg : string) : M string :=
  query (c_os_release pkg) (fun w h => w_os_release w h pkg).
Definition openstack_upgrade_available (pkg : string) : M bool :=
  query (c_openstack_upgrade_available pkg)
        (fun w h => w_openstack_upgrade_available w h pkg).
Definition is_unit_paused_set : M bool := query c_is_unit_paused_set w_is_unit_paused_set.
Definition canonical_url (endpoint : endpoint_type) : M string :=
  snapshot (fun w => w_canonical_url w endpoint).

(** [l.index(x)] *)
Fixpoint index (x : string) (l : list string) : option nat :=
  match l with
  | [] => None
  | y :: rest => if String.eqb x y then Some 0 else S <$> index x rest
  end.

(** Modelled from the spec: the comparator class of the helper library is
    not part of the hook file.  [CompareOpenStackReleases(release) >= other]
    orders service generations by their position in the release table
    [OPENSTACK_RELEASES]; a name that is not in the table raises. *)
Definition CompareOpenStackReleases_ge (release other : string) : M bool :=
  releases <- snapshot OPENSTACK_RELEASES ;;
  match index release releases with
  | None => raise (KeyError release)
  | Some i =>
      match index other releases with
      | None => raise (ValueError other)
      | Some j => ret (Nat.leb j i)
      end
  end.

(** [M]-level sequencing of a computation and a final step that runs
    whether or not the computation raised; the computation's own outcome
    is kept unless the final step raises. *)
Definition try_finally {A : Type} (m : M A) (final : M unit) : M A :=
  fun w st =>
    match m w st with
    | (r, st') =>
        match final w st' with
        | (Ret _, st'') => (r, st'')
        | (Raise e, st'') => (Raise e, st'')
        end
    end.

(** Modelled from the spec: the restart coordinator
    ([pausable_restart_on_change], imported as [restart_on_change]) is not
    part of the hook file.  It snapshots the watched files, runs the
    handler, snapshots again whether or not the handler raised, restarts
    each service whose watched files changed once (in two phases with
    [stopstart]), and re-raises the handler's failure afterwards. *)
Definition restart_service (stopstart : bool) (svc : string) : M unit :=
  if stopstart
  then emit (c_service_stop svc) ;; emit (c_service_start svc)
  else emit (c_service_restart svc).

Definition restart_on_change {A : Type} (stopstart : bool) (f : M A) : M A :=
  emit c_restart_on_change_snapshot ;;
  try_finally f
    (changed <- query c_restart_on_change_compare w_changed_services ;;
     for_each (remove_dups changed) (restart_service stopstart)).

(** Modelled from the spec: the guarded-execution wrapper [harden()] is not
    part of the hook file; it runs the hardening checks, which may fail,
    and then the handler. *)
Definition harden {A : Type} (f : M A) : M A := fallible c_harden ;; f.

(** Modelled from the spec: the DNS-based HA parameter builder is not part
    of the hook file.  It is handed the two dictionaries, which it may
    change in place, and publishes what it wants on the relation itself. *)
Definition update_dns_ha_resource_params
    (relation_id : option string) (resources resource_params : gmap string string)
  : M (gmap string string * gmap string string) :=
  r <- fallible_query
         (c_update_dns_ha_resource_params relation_id resources resource_params)
         (fun w h => w_update_dns_ha w h relation_id resources resource_params) ;;
  for_each r.2 (relation_set relation_id) ;;
  ret r.1.

(** *** charmhelpers.contrib: hahelpers, network, peerstorage, nrpe, execd *)

Definition get_hacluster_config : M (gmap string value) :=
  fallible_query c_get_hacluster_config w_get_hacluster_config.
Definition is_elected_leader (resource : string) : M bool :=
  snapshot (fun w => w_is_elected_leader w resource).
Definition get_iface_for_address (address : string) : M (option string) :=
  fallible_query (c_get_iface_for_address address)
                 (fun w h => w_get_iface_for_address w h address).
Definition get_netmask_for_address (address : string) : M (option string) :=
  fallible_query (c_get_netmask_for_address address)
                 (fun w h => w_get_netmask_for_address w h address).
Definition get_relation_ip (interface : string) (cidr_network : value)
  : M (option string) :=
  snapshot (fun w => w_get_relation_ip w interface cidr_network).

(** Modelled from the spec: the Relation Store's peer storage, a key/value
    store scoped to the cluster relation. *)
Definition peer_retrieve (key : string) : M (option string) :=
  fun _ st => (Ret (peer_db st !! key), record_call (c_peer_retrieve key) st).
Definition peer_store (key value : string) : M unit :=
  fun _ st =>
    (Ret tt,
     mkState (trace st ++ [c_peer_store key value]) (secret_file st)
             (<[key := value]> (peer_db st)) (relations st)).

Definition nrpe_get_nagios_hostname : M string :=
  fallible_query c_get_nagios_hostname w_get_nagios_hostname.
Definition nrpe_get_nagios_unit_name : M string :=
  fallible_query c_get_nagios_unit_name w_get_nagios_unit_name.
Definition nrpe_copy_nrpe_checks : M unit := fallible c_copy_nrpe_checks.
Definition nrpe_add_init_service_checks (hostname : string) (svcs : list string)
    (unit_name : string) : M unit :=
  fallible (c_add_init_service_checks hostname svcs unit_name).
Definition nrpe_add_haproxy_checks (hostname unit_name : string) : M unit :=
  fallible (c_add_haproxy_checks hostname unit_name).
Definition nrpe_setup_write (hostname : string) : M unit := fallible (c_nrpe_write hostname).
Definition execd_preinstall : M unit := fallible c_execd_preinstall.

(** *** ceilometer_utils *)

Definition disable_package_apache_site : M unit := fallible c_disable_package_apache_site.
Definition get_packages : M (list string) := fallible_query c_get_packages w_get_packages.
Definition run_in_apache : M bool := query c_run_in_apache w_run_in_apache.
Definition services : M (list string) := query c_services w_services.
Definition get_ceilometer_context : M (gmap string value) :=
  fallible_query c_get_ceilometer_context w_get_ceilometer_context.
Definition do_openstack_upgrade : M unit := fallible c_do_openstack_upgrade.
Definition assess_status : M unit := fallible c_assess_status.
Definition reload_systemd : M unit := fallible c_reload_systemd.
Definition CONFIGS_write_all : M unit := fallible c_write_all.
Definition CONFIGS_complete_contexts : M (list string) :=
  query c_complete_contexts w_complete_contexts.

(** Modelled from the spec: the shared secret is a single opaque token
    kept in a local file; writing it replaces the local copy. *)
Definition set_shared_secret (secret : string) : M unit :=
  fun _ st =>
    (Ret tt,
     mkState (trace st ++ [c_set_shared_secret secret]) (Some secret)
             (peer_db st) (relations st)).

(** Modelled from the spec: reading the shared secret returns the local
    copy, generating and storing a random one first when there is none. *)
Definition get_shared_secret : M string :=
  emit c_get_shared_secret ;;
  fun w st =>
    match secret_file st with
    | Some s => (Ret s, st)
    | None =>
        (secret <- query c_uuid4 w_uuid4 ;;
         set_shared_secret secret ;;
         ret secret) w st
    end.

(** *** subprocess, os, shutil *)

(** [subprocess.check_call(cmd)]: a non-zero exit status raises. *)
Definition subprocess_check_call (cmd : list string) : M unit :=
  r <- query (c_check_call cmd) (fun w h => w_run w h cmd) ;;
  match r with
  | Exited 0 => ret tt
  | Exited rc => raise (CalledProcessError rc cmd)
  | NotStarted => raise (OSError (Py.join " " cmd))
  end.

(** [subprocess.call(cmd)]: the exit status is the return value. *)
Definition subprocess_call (cmd : list string) : M Z :=
  r <- query (c_subprocess_call cmd) (fun w h => w_run w h cmd) ;;
  match r with
  | Exited rc => ret rc
  | NotStarted => raise (OSError (Py.join " " cmd))
  end.

Definition os_path_isdir (path : string) : M bool :=
  query (c_isdir path) (fun w h => w_isdir w h path).
Definition os_path_isfile (path : string) : M bool :=
  query (c_isfile path) (fun w h => w_isfile w h path).
Definition os_path_exists (path : string) : M bool :=
  query (c_exists path) (fun w h => w_exists w h path).
Definition os_makedirs (path : string) : M unit := fallible (c_makedirs path).
Definition os_remove (path : string) : M unit := fallible (c_remove path).
Definition os_chmod (path : string) (mode : Z) : M unit := fallible (c_chmod path mode).
Definition shutil_copy (src dst : string) : M unit := fallible (c_copy src dst).
Definition read_file (path : string) : M string :=
  fallible_query (c_read_file path) (fun w h => w_read_file w h path).

(** ** The hook file *)

Definition LEGACY_RES_KEY : string := "res_ceilometer_agent_central".
Definition LEGACY_OCF_FILE : string :=
  "/usr/lib/ocf/resource.d/openstack/ceilometer-agent-central".
Definition NEW_RES_KEY : string := "res_ceilometer_polling".

Definition opt_value (o : option string) : value :=
  match o with
  | Some s => VStr s
  | None => VNone
  end.

Definition install : M unit :=
  harden
    (execd_preinstall ;;
     origin <- config "openstack-origin" ;;
     release <- lsb_release ;;
     codename <- getitem release "DISTRIB_CODENAME" ;;
     let origin :=
       if (String.eqb codename "precise" && bool_decide (origin = VStr "distro"))%bool
       then VStr "cloud:precise-grizzly"
       else origin in
     configure_installation_source origin ;;
     wanted <- get_packages ;;
     packages <- filter_installed_packages wanted ;;
     (match packages with
      | [] => ret tt
      | _ =>
          status_set "maintenance" "Installing packages" ;;
          apt_update ;;
          apt_install packages
      end) ;;
     port <- snapshot CEILOMETER_PORT ;;
     open_port port ;;
     systemd <- init_is_systemd ;;
     (if systemd
      then conf <- snapshot CEILOMETER_API_SYSTEMD_CONF ;; mkdir (Py.dirname conf)
      else ret tt) ;;
     apache <- run_in_apache ;;
     if apache then disable_package_apache_site else ret tt).

Definition amqp_joined : M unit :=
  user <- config "rabbit-user" ;;
  vhost <- config "rabbit-vhost" ;;
  relation_set None (<["vhost" := vhost]> {["username" := user]}).

Definition db_joined : M unit :=
  db <- snapshot CEILOMETER_DB ;;
  relation_set None {["ceilometer_database" := VStr db]}.

Definition configure_https : M unit :=
  CONFIGS_write_all ;;
  complete <- CONFIGS_complete_contexts ;;
  (if bool_decide ("https" ∈ complete)
   then subprocess_check_call ["a2ensite"; "openstack_https_frontend"]
   else subprocess_check_call ["a2dissite"; "openstack_https_frontend"]) ;;
  paused <- is_unit_paused_set ;;
  if negb paused
  then
    try_except
      (subprocess_check_call ["service"; "apache2"; "reload"])
      (fun e =>
         match e with
         | CalledProcessError _ _ =>
             Some (_ <- subprocess_call ["service"; "apache2"; "restart"] ;; ret tt)
         | _ => None
         end)
  else ret tt.

Definition ceilometer_joined : M unit :=
  context <- get_ceilometer_context ;;
  context <-
    match context !! "rabbit_ssl_ca" with
    | Some (VStr path) =>
        content <- read_file path ;;
        encoded <- snapshot (fun w => w_b64encode w content) ;;
        ret (<["rabbit_ssl_ca" := VStr encoded]> context)
    | Some _ => raise (TypeError "open")
    | None => ret context
    end ;;
  relids <- relation_ids "ceilometer-service" ;;
  for_each relids (fun relid => relation_set (Some relid) context).

Definition keystone_joined (relid : option string) : M unit :=
  port <- snapshot CEILOMETER_PORT ;;
  public <- canonical_url PUBLIC ;;
  let public_url := public +:+ ":" +:+ pretty port in
  admin <- canonical_url ADMIN ;;
  let admin_url := admin +:+ ":" +:+ pretty port in
  internal <- canonical_url INTERNAL ;;
  let internal_url := internal +:+ ":" +:+ pretty port in
  region <- config "region" ;;
  service <- snapshot CEILOMETER_SERVICE ;;
  role <- snapshot CEILOMETER_ROLE ;;
  relation_set relid
    (<["region" := region]>
       (<["requested_roles" := VStr role]>
          (<["internal_url" := VStr internal_url]>
             (<["admin_url" := VStr admin_url]>
                (<["public_url" := VStr public_url]>
                   {["service" := VStr service]}))))).

Definition any_changed : M unit :=
  restart_on_change false
    (CONFIGS_write_all ;;
     configure_https ;;
     ceilometer_joined).

Definition identity_service_relation_changed : M unit :=
  restart_on_change false
    (CONFIGS_write_all ;;
     configure_https ;;
     keystone_joined None ;;
     ceilometer_joined).

Definition amqp_departed : M unit :=
  restart_on_change false
    (complete <- CONFIGS_complete_contexts ;;
     if negb (bool_decide ("amqp" ∈ complete))
     then log "amqp relation incomplete. Peer not ready?"
     else CONFIGS_write_all).

Definition install_event_pipeline_setting : M unit :=
  let src_file := "files/event_pipeline_alarm.yaml" in
  let dest_file := "/etc/ceilometer/event_pipeline_alarm.yaml" in
  present <- os_path_isdir (Py.dirname dest_file) ;;
  (if negb present then os_makedirs (Py.dirname dest_file) else ret tt) ;;
  shutil_copy src_file dest_file.

Definition update_nrpe_config : M unit :=
  apt_install ["python-dbus"] ;;
  hostname <- nrpe_get_nagios_hostname ;;
  current_unit <- nrpe_get_nagios_unit_name ;;
  nrpe_copy_nrpe_checks ;;
  svcs <- services ;;
  nrpe_add_init_service_checks hostname svcs current_unit ;;
  nrpe_add_haproxy_checks hostname current_unit ;;
  nrpe_setup_write hostname.

Definition install_ceilometer_ocf : M unit :=
  release <- os_release "ceilometer-common" ;;
  current <- CompareOpenStackReleases_ge release "liberty" ;;
  files <-
    (if current
     then
       legacy <- os_path_isfile LEGACY_OCF_FILE ;;
       (if legacy then os_remove LEGACY_OCF_FILE else ret tt) ;;
       ret ("/usr/lib/ocf/resource.d/openstack/ceilometer-polling",
            "ocf/openstack/ceilometer-polling")
     else ret (LEGACY_OCF_FILE, "ocf/openstack/ceilometer-agent-central")) ;;
  let dest_file := files.1 in
  let src_file := files.2 in
  present <- os_path_isdir (Py.dirname dest_file) ;;
  (if negb present then os_makedirs (Py.dirname dest_file) else ret tt) ;;
  installed <- os_path_exists dest_file ;;
  if negb installed
  then shutil_copy src_file dest_file ;; os_chmod dest_file 493
  else ret tt.

Definition cluster_joined (relation_id : option string) : M unit :=
  restart_on_change true
    (install_ceilometer_ocf ;;
     leader <- is_elected_leader "grp_ceilometer_vips" ;;
     (if leader
      then secret <- get_shared_secret ;; peer_store "shared_secret" secret
      else ret tt) ;;
     CONFIGS_write_all ;;
     types <- snapshot ADDRESS_TYPES ;;
     settings <-
       for_fold types ∅
         (fun settings addr_type =>
            cidr <- config ("os-" +:+ addr_type +:+ "-network") ;;
            address <- get_relation_ip addr_type cidr ;;
            ret (if truthy_opt address
                 then <[addr_type +:+ "-address" := opt_value address]> settings
                 else settings)) ;;
     private <- get_relation_ip "cluster" VNone ;;
     relation_set relation_id (<["private-address" := opt_value private]> settings)).

Definition cluster_changed : M unit :=
  restart_on_change true
    (shared_secret <- peer_retrieve "shared_secret" ;;
     (match shared_secret with
      | None => log "waiting for shared secret to be provided by leader"
      | Some secret =>
          if String.eqb (Py.strip secret) ""
          then log "waiting for shared secret to be provided by leader"
          else
            local <- get_shared_secret ;;
            if negb (String.eqb secret local)
            then set_shared_secret secret
            else ret tt
      end) ;;
     CONFIGS_write_all).

(** Lines 312-315 of [ha_joined]: the value left in [amqp_ssl_port] by the
    two nested loops over the amqp relations and their units. *)
Definition read_amqp_ssl_port : M (option string) :=
  rel_ids <- relation_ids "amqp" ;;
  for_fold rel_ids None
    (fun amqp_ssl_port rel_id =>
       units <- related_units rel_id ;;
       for_fold units amqp_ssl_port
         (fun _ unit_name => relation_get "ssl_port" (Some unit_name) (Some rel_id))).

Definition vip_resource_key (iface : string) : string :=
  "res_ceilometer_" +:+ iface +:+ "_vip".

Definition vip_resource_params (vip : string) (netmask : option string) (iface : string)
  : string :=
  "params ip=" +:+ Py.dquote +:+ vip +:+ Py.dquote
  +:+ " cidr_netmask=" +:+ Py.dquote +:+ Py.str_opt netmask +:+ Py.dquote
  +:+ " nic=" +:+ Py.dquote +:+ iface +:+ Py.dquote.

(** The local variables of the virtual-IP loop of [ha_joined]. *)
Record vip_vars : Type := mkVipVars {
  v_resources : gmap string string;
  v_resource_params : gmap string string;
  v_vip_group : list string
}.

(** Lines 329-344 of [ha_joined]: the body of the loop over the
    configured virtual IPs. *)
Definition vip_step (vars : vip_vars) (vip : string) : M vip_vars :=
  iface <- get_iface_for_address vip ;;
  match iface with
  | Some iface =>
      let vip_key := vip_resource_key iface in
      netmask <- get_netmask_for_address vip ;;
      ret (mkVipVars
             (<[vip_key := "ocf:heartbeat:IPaddr2"]> (v_resources vars))
             (<[vip_key := vip_resource_params vip netmask iface]>
                (v_resource_params vars))
             (v_vip_group vars ++ [vip_key]))
  | None => ret vars
  end.

Definition monitor (interval : string) : string :=
  "op monitor interval=" +:+ Py.dquote +:+ interval +:+ Py.dquote.

(** Lines 301-305 of [ha_joined]: the load balancer and the service
    resource, the latter under [RES_KEY]. *)
Definition base_resources (RES_KEY : string) : gmap string string :=
  let ocf_name := Py.replace (Py.replace RES_KEY "res_" "") "_" "-" in
  <[RES_KEY := "ocf:openstack:" +:+ ocf_name]>
    {["res_ceilometer_haproxy" := "lsb:haproxy"]}.

(** Lines 307-310 and 317-320 of [ha_joined]: the monitor parameters, the
    service resource's overridden when an amqp ssl port was read. *)
Definition base_resource_params (RES_KEY : string) (amqp_ssl_port : option string)
  : gmap string string :=
  let resource_params : gmap string string :=
    <[RES_KEY := monitor "30s"]> {["res_ceilometer_haproxy" := monitor "5s"]} in
  if truthy_opt amqp_ssl_port
  then <[RES_KEY := "params amqp_server_port=" +:+ Py.dquote
                    +:+ Py.str_opt amqp_ssl_port +:+ Py.dquote
                    +:+ " " +:+ monitor "30s"]> resource_params
  else resource_params.

(** Lines 327-349 of [ha_joined]: the branch taken without DNS HA. *)
Definition publish_vip_group (relation_id : option string)
    (cluster_config : gmap string value) (resources resource_params : gmap string string)
  : M (gmap string string * gmap string string) :=
  vip <- getitem cluster_config "vip" ;;
  vips <- match vip with
          | VStr s => ret (Py.split s)
          | _ => raise (AttributeError "split")
          end ;;
  vars <- for_fold vips (mkVipVars resources resource_params []) vip_step ;;
  (if Nat.leb 1 (length (v_vip_group vars))
   then relation_set relation_id
          {["groups" :=
              VDict {["grp_ceilometer_vips" := Py.join " " (v_vip_group vars)]}]}
   else ret tt) ;;
  ret (v_resources vars, v_resource_params vars).

(** Lines 351-364 of [ha_joined]: the settings of the last relation-set. *)
Definition ha_settings (bindiface mcastport : value)
    (resources resource_params : gmap string string) (delete_resources : list string)
  : gmap string value :=
  let init_services : gmap string string := {["res_ceilometer_haproxy" := "haproxy"]} in
  let clones : gmap string string :=
    {["cl_ceilometer_haproxy" := "res_ceilometer_haproxy"]} in
  {["init_services" := VDict init_services;
    "corosync_bindiface" := bindiface;
    "corosync_mcastport" := mcastport;
    "resources" := VDict resources;
    "resource_params" := VDict resource_params;
    "delete_resources" := VList delete_resources;
    "clones" := VDict clones]}.

Definition ha_joined (relation_id : option string) : M unit :=
  cluster_config <- get_hacluster_config ;;
  release <- os_release "ceilometer-common" ;;
  current <- CompareOpenStackReleases_ge release "liberty" ;;
  let RES_KEY := if current then NEW_RES_KEY else LEGACY_RES_KEY in
  let delete_resources := if current then [LEGACY_RES_KEY] else [] in
  let resources := base_resources RES_KEY in
  amqp_ssl_port <- read_amqp_ssl_port ;;
  let resource_params := base_resource_params RES_KEY amqp_ssl_port in
  dns_ha <- config "dns-ha" ;;
  maps <-
    (if truthy dns_ha
     then update_dns_ha_resource_params relation_id resources resource_params
     else publish_vip_group relation_id cluster_config resources resource_params) ;;
  bindiface <- getitem cluster_config "ha-bindiface" ;;
  mcastport <- getitem cluster_config "ha-mcastport" ;;
  relation_set relation_id
    (ha_settings bindiface mcastport maps.1 maps.2 delete_resources).

Definition config_changed : M unit :=
  restart_on_change false
    (harden
       (managed <- config "action-managed-upgrade" ;;
        (if negb (truthy managed)
         then
           available <- openstack_upgrade_available "ceilometer-common" ;;
           if available
           then
             status_set "maintenance" "Upgrading to new OpenStack release" ;;
             do_openstack_upgrade
           else ret tt
         else ret tt) ;;
        install_event_pipeline_setting ;;
        update_nrpe_config ;;
        CONFIGS_write_all ;;
        reload_systemd ;;
        ceilometer_joined ;;
        configure_https ;;
        rids <- relation_ids "identity-service" ;;
        for_each rids (fun rid => keystone_joined (Some rid)) ;;
        install_ceilometer_ocf ;;
        rids <- relation_ids "ha" ;;
        for_each rids (fun rid => ha_joined (Some rid)))).

Definition upgrade_charm : M unit :=
  harden
    (install ;;
     update_nrpe_config ;;
     any_changed ;;
     rids <- relation_ids "cluster" ;;
     for_each rids (fun rid => cluster_joined (Some rid))).

Definition ha_changed : M unit :=
  clustered <- relation_get "clustered" None None ;;
  if (negb (truthy_opt clustered)
      || bool_decide (clustered ∈ [None; Some "None"; Some ""]))%bool
  then log "ha_changed: hacluster subordinate not fully clustered."
  else
    log ("Cluster configured, notifying other services and updating "
         +:+ "keystone endpoint configuration") ;;
    rids <- relation_ids "identity-service" ;;
    for_each rids (fun rid => keystone_joined (Some rid)).

Definition identity_notifications_changed : M unit :=
  notifications <- relation_get_all ;;
  if bool_decide (notifications = ∅)
  then ret tt
  else
    service <- snapshot CEILOMETER_SERVICE ;;
    let key := service +:+ "-endpoint-changed" in
    match notifications !! key with
    | Some _ =>
        service_restart "ceilometer-alarm-evaluator" ;;
        service_restart "ceilometer-alarm-notifier"
    | None => ret tt
    end.

Definition update_status : M unit := harden (log "Updating status.").

(** Modelled from the spec: the registration side of the Event
    Dispatcher, which is not part of the hook file.  The table is a
    dictionary from event names to handlers: [register] enters a name,
    and a name that is entered again gets the new handler in the place
    of the old one. *)
Fixpoint register (name : string) (handler : M unit) (table : list (string * M unit))
  : list (string * M unit) :=
  match table with
  | [] => [(name, handler)]
  | (n, h) :: rest =>
      if String.eqb n name
      then (n, handler) :: rest
      else (n, h) :: register name handler rest
  end.

(** Modelled from the spec: the decorator [hooks.hook], given the names
    [hook_names], on a function whose name, as the decorator sees it, is
    [name].  The function is
    registered under every name given, then under its own name and, when
    that has an underscore, under its own name with dashes for the
    underscores.  The wrappers [restart_on_change] and [harden] are taken
    to hand the function's name on. *)
Definition hook (hook_names : list string) (name : string) (decorated : M unit)
    (table : list (string * M unit)) : list (string * M unit) :=
  let table := foldl (fun t hook_name => register hook_name decorated t) table hook_names in
  let table := register name decorated table in
  if Py.contains name "_"
  then register (Py.replace name "_" "-") decorated table
  else table.

(** The dispatch table built by the [@hooks.hook] decorators of the hook
    file, applied in declaration order; a handler is called without
    arguments. *)
Definition hooks : list (string * M unit) :=
  foldl (fun table decorator => decorator table) []
    [ hook ["install.real"] "install" install;
      hook ["amqp-relation-joined"] "amqp_joined" amqp_joined;
      hook ["shared-db-relation-joined"] "db_joined" db_joined;
      hook ["amqp-relation-changed"; "shared-db-relation-changed";
            "shared-db-relation-departed"] "any_changed" any_changed;
      hook ["identity-service-relation-changed"] "identity_service_relation_changed"
           identity_service_relation_changed;
      hook ["amqp-relation-departed"] "amqp_departed" amqp_departed;
      hook ["config-changed"] "config_changed" config_changed;
      hook ["upgrade-charm"] "upgrade_charm" upgrade_charm;
      hook ["cluster-relation-joined"] "cluster_joined" (cluster_joined None);
      hook ["cluster-relation-changed"; "cluster-relation-departed"]
           "cluster_changed" cluster_changed;
      hook ["ha-relation-joined"] "ha_joined" (ha_joined None);
      hook ["ha-relation-changed"] "ha_changed" ha_changed;
      hook ["identity-service-relation-joined"] "keystone_joined" (keystone_joined None);
      hook ["identity-notifications-relation-changed"] "identity_notifications_changed"
           identity_notifications_changed;
      hook ["ceilometer-service-relation-joined"] "ceilometer_joined" ceilometer_joined;
      hook ["nrpe-external-master-relation-joined";
            "nrpe-external-master-relation-changed"]
           "update_nrpe_config" update_nrpe_config;
      hook ["update-status"] "update_status" update_status ].

(** The handlers registered under an event name, in registration order. *)
Definition registered (table : list (string * M unit)) (name : string) : list (M unit) :=
  snd <$> filter (fun entry => entry.1 = name) table.

(** Modelled from the spec: the Event Dispatcher of the helper library is
    not part of the hook file.  The event name is the last path component
    of the first argument; the handlers registered under it run in
    registration order, a failure aborting the rest; an event with no
    handler raises [UnregisteredHookError]. *)
Definition execute (table : list (string * M unit)) (args : list string) : M unit :=
  let hook_name := Py.basename (default "" (head args)) in
  match registered table hook_name with
  | [] => raise (UnregisteredHookError hook_name)
  | handlers => for_each handlers (fun handler => handler)
  end.

(** The [__main__] block. *)
Definition main (argv : list string) : M unit :=
  try_except
    (execute hooks argv)
    (fun e =>
       match e with
       | UnregisteredHookError name =>
           Some (log ("Unknown hook " +:+ name +:+ " - skipping."))
       | _ => None
       end) ;;
  assess_status.

(** The exit status of the process: 0 when [main] returns, 1 when an
    exception reaches the top level. *)
Definition exit_status {A : Type} (r : outcome A) : Z :=
  match r with
  | Ret _ => 0
  | Raise _ => 1
  end.

(** ** Vocabulary of the statements *)

(** Several calls recorded in a row. *)
Definition record_calls (cs : list call) (st : State) : State :=
  mkState (trace st ++ cs) (secret_file st) (peer_db st) (relations st).

(** The calls the restart coordinator makes for the changed services. *)
Definition restart_events (stopstart : bool) (svcs : list string) : list call :=
  flat_map (fun svc =>
              if stopstart
              then [c_service_stop svc; c_service_start svc]
              else [c_service_restart svc]) svcs.

(** The relation-set writes among a sequence of calls, in order. *)
Definition relation_writes (evs : list call) : list (option string * gmap string value) :=
  omap (fun c =>
          match c with
          | c_relation_set rid settings => Some (rid, settings)
          | _ => None
          end) evs.

(** The amqp units in the order [ha_joined] enumerates them: relation by
    relation, and within a relation unit by unit. *)
Definition amqp_units (w : World) : list (string * string) :=
  flat_map (fun rel_id => (fun unit_name => (rel_id, unit_name)) <$> w_related_units w rel_id)
           (w_relation_ids w "amqp").

(** The [ssl_port] advertised by the last amqp unit enumerated, [None]
    when that unit advertises none or when there is no unit at all. *)
Definition ssl_port_of_last_unit (w : World) : option string :=
  match last (amqp_units w) with
  | Some (rel_id, unit_name) => w_relation_get w "ssl_port" (Some unit_name) (Some rel_id)
  | None => None
  end.

(** The [groups] value a unit has published on a relation, if any. *)
Definition published_groups (st : State) (rid : string) : option value :=
  relations st !! rid ≫= (fun settings => settings !! "groups").

(** A call that writes the [groups] key of a relation. *)
Definition writes_groups (c : call) : Prop :=
  match c with
  | c_relation_set _ settings => is_Some (settings !! "groups")
  | _ => False
  end.

(** The last character of a string. *)
Fixpoint last_char (s : string) : option ascii :=
  match s with
  | EmptyString => None
  | String c s' =>
      match last_char s' with
      | None => Some c
      | Some d => Some d
      end
  end.

(** A computation respects a relation on states when, whatever the
    outcome, the state it ends in is related to the one it started from. *)
Definition respects (R : State -> State -> Prop) {A : Type} (w : World) (m : M A) : Prop :=
  forall st, R st (m w st).2.

(** The calls made between two states are all acceptable to [ok]. *)
Definition extends_by (ok : call -> Prop) (st st' : State) : Prop :=
  exists evs, trace st' = trace st ++ evs /\ Forall ok evs.

(** Between two states no call wrote the [groups] key of a relation, and
    the [groups] value published on every relation is the same. *)
Definition groups_untouched (st st' : State) : Prop :=
  extends_by (fun c => ~ writes_groups c) st st' /\
  forall rid, published_groups st' rid = published_groups st rid.

(** The unit has published [secret]: the peer storage holds it under
    [shared_secret] and the local copy is the same value. *)
Definition secret_published (secret : string) (st : State) : Prop :=
  peer_db st !! "shared_secret" = Some secret /\ secret_file st = Some secret.

(** A step that does not disturb a published secret. *)
Definition keeps_published (secret : string) (st st' : State) : Prop :=
  secret_published secret st -> secret_published secret st'.

(** The three events of the cluster relation. *)
Definition cluster_event (name : string) : Prop :=
  name = "cluster-relation-joined" \/ name = "cluster-relation-changed"
  \/ name = "cluster-relation-departed".

(** ** Sample worlds *)

Definition initial_state : State := mkState [] None ∅ ∅.

(** A world with sample values for the imported constants and quiet
    defaults for everything a scenario does not set. *)
Definition sample_world
    (relation_id : option string)
    (cfg : string -> value)
    (rel_ids units : string -> list string)
    (rel_get : string -> option string -> option string -> option string)
    (leader : bool)
    (fault : list call -> call -> option exn)
    (run : list call -> list string -> cmd_result)
    (complete : list call -> list string)
    (release : string)
    (hacluster : gmap string value)
    (iface netmask : string -> option string) : World :=
  {| CEILOMETER_DB := "ceilometer";
     CEILOMETER_SERVICE := "ceilometer";
     CEILOMETER_ROLE := "ResellerAdmin";
     CEILOMETER_API_SYSTEMD_CONF :=
       "/etc/systemd/system/ceilometer-api.service.d/override.conf";
     CEILOMETER_PORT := 8777;
     ADDRESS_TYPES := ["admin"; "internal"; "public"];
     OPENSTACK_RELEASES :=
       ["icehouse"; "juno"; "kilo"; "liberty"; "mitaka"; "newton"; "ocata"];
     w_b64encode := fun s => s;
     w_relation_id := relation_id;
     w_config := cfg;
     w_relation_ids := rel_ids;
     w_related_units := units;
     w_relation_get := rel_get;
     w_relation_get_all := ∅;
     w_is_elected_leader := fun _ => leader;
     w_lsb_release := {["DISTRIB_CODENAME" := "xenial"]};
     w_get_relation_ip := fun _ _ => Some "10.5.0.7";
     w_canonical_url := fun _ => "http://10.5.0.7";
     w_fault := fault;
     w_run := run;
     w_complete_contexts := complete;
     w_is_unit_paused_set := fun _ => false;
     w_changed_services := fun _ => [];
     w_os_release := fun _ _ => release;
     w_get_packages := fun _ => [];
     w_filter_installed_packages := fun _ pkgs => pkgs;
     w_init_is_systemd := fun _ => true;
     w_run_in_apache := fun _ => false;
     w_openstack_upgrade_available := fun _ _ => false;
     w_isdir := fun _ _ => true;
     w_isfile := fun _ _ => false;
     w_exists := fun _ _ => true;
     w_read_file := fun _ _ => "";
     w_uuid4 := fun _ => "3f2504e0-4f89-11d3-9a0c-0305e82c3301";
     w_get_hacluster_config := fun _ => hacluster;
     w_get_iface_for_address := fun _ => iface;
     w_get_netmask_for_address := fun _ => netmask;
     w_update_dns_ha := fun _ _ resources resource_params => (resources, resource_params, []);
     w_get_ceilometer_context := fun _ => ∅;
     w_services := fun _ => [];
     w_get_nagios_hostname := fun _ => "juju-ceilometer-0";
     w_get_nagios_unit_name := fun _ => "ceilometer/0" |}.

Definition no_fault : list call -> call -> option exn := fun _ _ => None.
Definition all_succeed : list call -> list string -> cmd_result := fun _ _ => Exited 0.
Definition no_config : string -> value := fun _ => VNone.
Definition no_relations : string -> list string := fun _ => [].
Definition no_relation_data : string -> option string -> option string -> option string :=
  fun _ _ _ => None.
Definition nothing_complete : list call -> list string := fun _ => [].
Definition no_address : string -> option string := fun _ => None.

(** The cluster configuration of the sample HA scenarios: two virtual
    IPs, of which only 10.5.100.1 is on a local network. *)
Definition two_vips : gmap string value :=
  {["vip" := VStr "10.5.100.1 10.99.0.1";
    "ha-bindiface" := VStr "eth0";
    "ha-mcastport" := VInt 5403]}.

Definition only_first_vip_local (address : string) : option string :=
  if String.eqb address "10.5.100.1" then Some "eth0" else None.

Definition netmask_24 (address : string) : option string := Some "255.255.255.0".

(** A unit running the ha-relation-joined hook on relation [ha:0], on a
    mitaka installation, without DNS HA. *)
Definition ha_world : World :=
  sample_world (Some "ha:0") no_config no_relations no_relations no_relation_data
               false no_fault all_succeed nothing_complete "mitaka"
               two_vips only_first_vip_local netmask_24.

(** The same unit when neither configured virtual IP is on a local
    network, with a [groups] value left on the relation by an earlier run. *)
Definition ha_world_no_local_vip : World :=
  sample_world (Some "ha:0") no_config no_relations no_relations no_relation_data
               false no_fault all_succeed nothing_complete "mitaka"
               two_vips no_address netmask_24.

Definition state_with_groups : State :=
  mkState [] None ∅
          {["ha:0" := {["groups" := VDict {["grp_ceilometer_vips" := "res_ceilometer_eth0_vip"]}]}]}.

(** The dispatch of ha-relation-joined in [ha_world]. *)
Definition ha_run : outcome unit * State :=
  execute hooks ["hooks/ha-relation-joined"] ha_world initial_state.

(** Two amqp units on one relation: the first advertises an ssl port, the
    last one enumerated does not. *)
Definition amqp_two_units (relid : string) : list string :=
  if String.eqb relid "amqp:3" then ["rabbitmq-server/0"; "rabbitmq-server/1"] else [].

Definition amqp_one_relation (reltype : string) : list string :=
  if String.eqb reltype "amqp" then ["amqp:3"] else [].

Definition ssl_port_on_first_unit
    (attribute : string) (unit_name rid : option string) : option string :=
  if bool_decide (attribute = "ssl_port" /\ unit_name = Some "rabbitmq-server/0"
                  /\ rid = Some "amqp:3")
  then Some "5671" else None.

Definition ha_world_amqp : World :=
  sample_world (Some "ha:0") no_config amqp_one_relation amqp_two_units
               ssl_port_on_first_unit
               false no_fault all_succeed nothing_complete "mitaka"
               two_vips only_first_vip_local netmask_24.

Definition ha_run_amqp : outcome unit * State :=
  ha_joined None ha_world_amqp initial_state.

(** The commands of [configure_https]. *)
Definition a2ensite : list string := ["a2ensite"; "openstack_https_frontend"].
Definition a2dissite : list string := ["a2dissite"; "openstack_https_frontend"].
Definition apache_reload : list string := ["service"; "apache2"; "reload"].
Definition apache_restart : list string := ["service"; "apache2"; "restart"].

(** A machine on which apache can neither be reloaded nor restarted: both
    service commands exit with status 1; every other command succeeds. *)
Definition apache_down (h : list call) (cmd : list string) : cmd_result :=
  if bool_decide (head cmd = Some "service") then Exited 1 else Exited 0.

Definition apache_down_world : World :=
  sample_world None no_config no_relations no_relations no_relation_data
               false no_fault apache_down nothing_complete "mitaka"
               two_vips no_address netmask_24.

(** A unit whose [https] fragment is complete the first time the
    renderer is asked and incomplete every time after that. *)
Definition https_complete_once (h : list call) : list string :=
  if bool_decide (c_complete_contexts ∈ h) then [] else ["https"].

Definition https_once_world : World :=
  sample_world None no_config no_relations no_relations no_relation_data
               false no_fault all_succeed https_complete_once "mitaka"
               two_vips no_address netmask_24.

(** A call that toggles the HTTPS site or asks for the complete contexts. *)
Definition toggles_site (c : call) : Prop :=
  c = c_check_call a2ensite \/ c = c_check_call a2dissite \/ c = c_complete_contexts.

Definition after_first_https_call : State :=
  (configure_https https_once_world initial_state).2.

(** A follower whose local secret differs from the one the leader has put
    in the peer storage. *)
Definition follower_state : State :=
  mkState [] (Some "local-secret") {["shared_secret" := "leader-secret"]} ∅.

Definition follower_world : World :=
  sample_world (Some "cluster:1") no_config no_relations no_relations no_relation_data
               false no_fault all_succeed nothing_complete "mitaka"
               two_vips no_address netmask_24.

(** A leader that has published its secret. *)
Definition leader_state : State :=
  mkState [] (Some "leader-secret") {["shared_secret" := "leader-secret"]} ∅.

Definition leader_world : World :=
  sample_world (Some "cluster:1") no_config no_relations no_relations no_relation_data
               true no_fault all_succeed nothing_complete "mitaka"
               two_vips no_address netmask_24.

(** A unit on which rendering the configuration files fails while the
    [amqp] fragment is complete. *)
Definition render_fails (h : list call) (c : call) : option exn :=
  if bool_decide (c = c_write_all) then Some (Exception "write_all") else None.

Definition amqp_complete (h : list call) : list string := ["amqp"].

Definition render_fails_world : World :=
  sample_world (Some "amqp:3") no_config no_relations no_relations no_relation_data
               false render_fails all_succeed amqp_complete "mitaka"
               two_vips no_address netmask_24.

(** The exceptions the [__main__] block catches. *)
Definition is_unregistered (e : exn) : Prop :=
  exists name, e = UnregisteredHookError name.

(** The unit of [ha_world] on a kilo installation, before liberty. *)
Definition ha_world_kilo : World :=
  sample_world (Some "ha:0") no_config no_relations no_relations no_relation_data
               false no_fault all_succeed nothing_complete "kilo"
               two_vips only_first_vip_local netmask_24.

(** The double-quote character (code 34), as it stands in the resource
    parameter strings. *)
Definition quote_mark : string := String (ascii_of_nat 34) EmptyString.

(** Two amqp units on one relation of which the last one enumerated
    advertises an ssl port. *)
Definition ssl_port_on_last_unit
    (attribute : string) (unit_name rid : option string) : option string :=
  if bool_decide (attribute = "ssl_port" /\ unit_name = Some "rabbitmq-server/1"
                  /\ rid = Some "amqp:3")
  then Some "5671" else None.

Definition ha_world_ssl : World :=
  sample_world (Some "ha:0") no_config amqp_one_relation amqp_two_units
               ssl_port_on_last_unit
               false no_fault all_succeed nothing_complete "mitaka"
               two_vips only_first_vip_local netmask_24.

(** The same unit with DNS HA switched on. *)
Definition dns_ha_config (key : string) : value :=
  if String.eqb key "dns-ha" then VBool true else VNone.

Definition ha_world_dns : World :=
  sample_world (Some "ha:0") dns_ha_config amqp_one_relation amqp_two_units
               ssl_port_on_last_unit
               false no_fault all_succeed nothing_complete "mitaka"
               two_vips only_first_vip_local netmask_24.
(** ** The dispatch table *)

(** The table the decorators build: every event name of the hook file,
    and every handler under its own name and its dashed form; each name
    is there once. *)
Lemma hooks_table :
  hooks =
    [
      ("install.real", install);
      ("install", install);
      ("amqp-relation-joined", amqp_joined);
      ("amqp_joined", amqp_joined);
      ("amqp-joined", amqp_joined);
      ("shared-db-relation-joined", db_joined);
      ("db_joined", db_joined);
      ("db-joined", db_joined);
      ("amqp-relation-changed", any_changed);
      ("shared-db-relation-changed", any_changed);
      ("shared-db-relation-departed", any_changed);
      ("any_changed", any_changed);
      ("any-changed", any_changed);
      ("identity-service-relation-changed", identity_service_relation_changed);
      ("identity_service_relation_changed", identity_service_relation_changed);
      ("amqp-relation-departed", amqp_departed);
      ("amqp_departed", amqp_departed);
      ("amqp-departed", amqp_departed);
      ("config-changed", config_changed);
      ("config_changed", config_changed);
      ("upgrade-charm", upgrade_charm);
      ("upgrade_charm", upgrade_charm);
      ("cluster-relation-joined", cluster_joined None);
      ("cluster_joined", cluster_joined None);
      ("cluster-joined", cluster_joined None);
      ("cluster-relation-changed", cluster_changed);
      ("cluster-relation-departed", cluster_changed);
      ("cluster_changed", cluster_changed);
      ("cluster-changed", cluster_changed);
      ("ha-relation-joined", ha_joined None);
      ("ha_joined", ha_joined None);
      ("ha-joined", ha_joined None);
      ("ha-relation-changed", ha_changed);
      ("ha_changed", ha_changed);
      ("ha-changed", ha_changed);
      ("identity-service-relation-joined", keystone_joined None);
      ("keystone_joined", keystone_joined None);
      ("keystone-joined", keystone_joined None);
      ("identity-notifications-relation-changed", identity_notifications_changed);
      ("identity_notifications_changed", identity_notifications_changed);
      ("identity-notifications-changed", identity_notifications_changed);
      ("ceilometer-service-relation-joined", ceilometer_joined);
      ("ceilometer_joined", ceilometer_joined);
      ("ceilometer-joined", ceilometer_joined);
      ("nrpe-external-master-relation-joined", update_nrpe_config);
      ("nrpe-external-master-relation-changed", update_nrpe_config);
      ("update_nrpe_config", update_nrpe_config);
      ("update-nrpe-config", update_nrpe_config);
      ("update-status", update_status);
      ("update_status", update_status) ].
Proof. reflexivity. Qed.

(** ** Running the monad forwards *)

Section Forward.
Context {A B : Type} (k : A -> M B) (w : World) (st : State).

Lemma bind_ret a : bind (ret a) k w st = k a w st.
Proof. reflexivity. Qed.

Lemma bind_raise e : bind (raise e) k w st = (Raise e, st).
Proof. reflexivity. Qed.

Lemma bind_snapshot f : bind (snapshot f) k w st = k (f w) w st.
Proof. reflexivity. Qed.

Lemma bind_query c f :
  bind (query c f) k w st = k (f w (trace st)) w (record_call c st).
Proof. reflexivity. Qed.

Lemma bind_fallible_query c f :
  w_fault w (trace st) c = None ->
  bind (fallible_query c f) k w st = k (f w (trace st)) w (record_call c st).
Proof. intros H. unfold bind, fallible_query. by rewrite H. Qed.

Lemma bind_assoc {C} (m : M C) (f : C -> M A) :
  bind (bind m f) k w st = bind m (fun c => bind (f c) k) w st.
Proof. unfold bind. destruct (m w st) as [[c|e] st1]; reflexivity. Qed.
End Forward.

Section ForwardUnit.
Context {B : Type} (k : unit -> M B) (w : World) (st : State).

Lemma bind_emit c : bind (emit c) k w st = k tt w (record_call c st).
Proof. reflexivity. Qed.

Lemma bind_fallible c :
  w_fault w (trace st) c = None ->
  bind (fallible c) k w st = k tt w (record_call c st).
Proof. intros H. unfold bind, fallible. by rewrite H. Qed.
End ForwardUnit.

(** ** The amqp port loop *)

Lemma amqp_units_loop w st rel_id units acc :
  for_fold units acc
    (fun _ unit_name => relation_get "ssl_port" (Some unit_name) (Some rel_id)) w st
  = (Ret (match last units with
          | Some unit_name => w_relation_get w "ssl_port" (Some unit_name) (Some rel_id)
          | None => acc
          end), st).
Proof.
  revert acc. induction units as [|u us IH]; intros acc; [done|].
  cbn [for_fold]. unfold relation_get at 1. rewrite bind_snapshot, IH.
  rewrite last_cons. by destruct (last us).
Qed.

Lemma amqp_relations_loop w st rel_ids acc :
  for_fold rel_ids acc
    (fun amqp_ssl_port rel_id =>
       units <- related_units rel_id ;;
       for_fold units amqp_ssl_port
         (fun _ unit_name => relation_get "ssl_port" (Some unit_name) (Some rel_id))) w st
  = (Ret (match last (flat_map (fun rel_id =>
                                  (fun unit_name => (rel_id, unit_name))
                                    <$> w_related_units w rel_id) rel_ids) with
          | Some (rel_id, unit_name) =>
              w_relation_get w "ssl_port" (Some unit_name) (Some rel_id)
          | None => acc
          end), st).
Proof.
  revert acc. induction rel_ids as [|r rs IH]; intros acc; [done|].
  cbn [for_fold flat_map]. unfold related_units at 1.
  rewrite bind_assoc, bind_snapshot. unfold bind at 1.
  rewrite amqp_units_loop, IH, last_app.
  destruct (last (flat_map _ rs)) as [[r' u']|]; [done|].
  rewrite fmap_last. by destruct (last (w_related_units w r)).
Qed.

Lemma read_amqp_ssl_port_run w st :
  read_amqp_ssl_port w st = (Ret (ssl_port_of_last_unit w), st).
Proof.
  unfold read_amqp_ssl_port, relation_ids. rewrite bind_snapshot.
  apply amqp_relations_loop.
Qed.

Lemma bind_read_amqp_ssl_port {B} (k : option string -> M B) w st :
  bind read_amqp_ssl_port k w st = k (ssl_port_of_last_unit w) w st.
Proof. unfold bind. by rewrite read_amqp_ssl_port_run. Qed.

(** ** Resource keys *)

Lemma last_char_app a b : b <> "" -> last_char (a +:+ b) = last_char b.
Proof.
  intros Hb. induction a as [|c a IH]; [done|].
  change (String c a +:+ b) with (String c (a +:+ b)).
  cbn [last_char]. rewrite IH.
  destruct b as [|d b]; [done|]. cbn. by destruct (last_char b).
Qed.

Lemma vip_resource_key_last iface : last_char (vip_resource_key iface) = Some "p"%char.
Proof.
  unfold vip_resource_key.
  rewrite last_char_app by (by destruct iface).
  by rewrite last_char_app.
Qed.

Lemma vip_resource_key_fresh iface :
  vip_resource_key iface <> "res_ceilometer_haproxy" /\
  vip_resource_key iface <> LEGACY_RES_KEY /\
  vip_resource_key iface <> NEW_RES_KEY.
Proof.
  pose proof (vip_resource_key_last iface) as H.
  repeat split; intros E; rewrite E in H; discriminate.
Qed.

Lemma bind_relation_set {B} (k : unit -> M B) w st relation_id rid settings :
  target_relation w relation_id = Some rid ->
  bind (relation_set relation_id settings) k w st
  = k tt w (publish rid settings (record_call (c_relation_set relation_id settings) st)).
Proof.
  intros H. unfold relation_set. rewrite bind_assoc, bind_emit.
  unfold bind. by rewrite H.
Qed.

Lemma relation_set_run w st relation_id rid settings :
  target_relation w relation_id = Some rid ->
  relation_set relation_id settings w st
  = (Ret tt, publish rid settings (record_call (c_relation_set relation_id settings) st)).
Proof. intros H. unfold relation_set. rewrite bind_emit. by rewrite H. Qed.

Lemma lookup_apply_settings settings old k :
  settings !! k = None -> apply_settings settings old !! k = old !! k.
Proof.
  intros H. unfold apply_settings. rewrite lookup_union, H.
  by destruct (old !! k).
Qed.

Create HintDb hooks discriminated.
#[local] Hint Unfold
  log status_set open_port config relation_ids related_units relation_get
  relation_get_all filter_installed_packages apt_update apt_install
  service_restart lsb_release mkdir init_is_systemd configure_installation_source
  os_release openstack_upgrade_available is_unit_paused_set canonical_url
  get_hacluster_config is_elected_leader get_iface_for_address
  get_netmask_for_address get_relation_ip CONFIGS_write_all
  CONFIGS_complete_contexts assess_status : hooks.

(** One step of forward execution at the head of the computation. *)
Ltac forward_step :=
  first
    [ rewrite bind_assoc
    | rewrite bind_ret
    | rewrite bind_raise
    | rewrite bind_snapshot
    | rewrite bind_query
    | rewrite bind_emit
    | rewrite bind_fallible_query by done
    | rewrite bind_fallible by done
    | erewrite bind_relation_set by eassumption
    | rewrite bind_read_amqp_ssl_port ].

Ltac forward := autounfold with hooks; repeat forward_step.

(** Equality of finite sets built from unions and singletons. *)
Ltac set_eq_tac :=
  rewrite ?dom_insert_L, ?dom_singleton_L, ?dom_empty_L;
  apply set_eq; intros ?;
  rewrite ?elem_of_union, ?elem_of_singleton, ?elem_of_empty; tauto.

(** ** Running the monad backwards *)

Lemma bind_inv {A B} (m : M A) (k : A -> M B) w st r st' :
  bind m k w st = (r, st') ->
  (exists a st1, m w st = (Ret a, st1) /\ k a w st1 = (r, st')) \/
  (exists e, m w st = (Raise e, st') /\ r = Raise e).
Proof.
  unfold bind. destruct (m w st) as [[a|e] st1]; intros H.
  - left. eauto.
  - right. inversion H. eauto.
Qed.

Lemma bind_ret_inv {A B} (m : M A) (k : A -> M B) w st b st' :
  bind m k w st = (Ret b, st') ->
  exists a st1, m w st = (Ret a, st1) /\ k a w st1 = (Ret b, st').
Proof.
  intros H. apply bind_inv in H as [H|(e & _ & H)]; [done|discriminate].
Qed.

Lemma fallible_query_ret_inv {A} c (f : World -> list call -> A) w st a st1 :
  fallible_query c f w st = (Ret a, st1) ->
  w_fault w (trace st) c = None /\ a = f w (trace st) /\ st1 = record_call c st.
Proof.
  unfold fallible_query. destruct (w_fault w (trace st) c); intros H; by inversion H.
Qed.

Lemma relation_set_ret_inv relation_id settings w st st' :
  relation_set relation_id settings w st = (Ret tt, st') ->
  exists rid, target_relation w relation_id = Some rid /\
              st' = publish rid settings
                      (record_call (c_relation_set relation_id settings) st).
Proof.
  unfold relation_set. rewrite bind_emit.
  destruct (target_relation w relation_id) as [rid|]; intros H; inversion H. eauto.
Qed.

Lemma getitem_ret_inv {V} (d : gmap string V) k w st v st' :
  getitem d k w st = (Ret v, st') -> d !! k = Some v /\ st' = st.
Proof. unfold getitem. destruct (d !! k); intros H; by inversion H. Qed.

(** ** Computations that respect a relation on states *)

Section Respects.
Context (R : State -> State -> Prop) `{!Reflexive R} `{!Transitive R}.
Context (ok : call -> Prop) (okw : gmap string value -> Prop).
Hypothesis R_record : forall c st, ok c -> R st (record_call c st).
Hypothesis R_publish : forall rid settings st, okw settings -> R st (publish rid settings st).
Context (w : World).

Lemma respects_ret {A} (a : A) : respects R w (ret a).
Proof. intros st. reflexivity. Qed.

Lemma respects_raise {A} e : respects R w (@raise A e).
Proof. intros st. reflexivity. Qed.

Lemma respects_snapshot {A} (f : World -> A) : respects R w (snapshot f).
Proof. intros st. reflexivity. Qed.

Lemma respects_emit c : ok c -> respects R w (emit c).
Proof. intros Hc st. by apply R_record. Qed.

Lemma respects_fallible c : ok c -> respects R w (fallible c).
Proof.
  intros Hc st. unfold fallible.
  destruct (w_fault w (trace st) c); by apply R_record.
Qed.

Lemma respects_query {A} c (f : World -> list call -> A) :
  ok c -> respects R w (query c f).
Proof. intros Hc st. by apply R_record. Qed.

Lemma respects_fallible_query {A} c (f : World -> list call -> A) :
  ok c -> respects R w (fallible_query c f).
Proof.
  intros Hc st. unfold fallible_query.
  destruct (w_fault w (trace st) c); by apply R_record.
Qed.

Lemma respects_bind {A B} (m : M A) (k : A -> M B) :
  respects R w m -> (forall a, respects R w (k a)) -> respects R w (bind m k).
Proof.
  intros Hm Hk st. unfold bind. specialize (Hm st).
  destruct (m w st) as [[a|e] st1]; [|done].
  etrans; [exact Hm|apply Hk].
Qed.

Lemma respects_try_except {A} (m : M A) (h : exn -> option (M A)) :
  respects R w m -> (forall e k, h e = Some k -> respects R w k) ->
  respects R w (try_except m h).
Proof.
  intros Hm Hh st. unfold try_except. specialize (Hm st).
  destruct (m w st) as [[a|e] st1]; [done|].
  destruct (h e) as [k|] eqn:He; [|done].
  etrans; [exact Hm|by eapply Hh].
Qed.

Lemma respects_try_finally {A} (m : M A) (final : M unit) :
  respects R w m -> respects R w final -> respects R w (try_finally m final).
Proof.
  intros Hm Hf st. unfold try_finally. specialize (Hm st).
  destruct (m w st) as [r st1]. specialize (Hf st1).
  destruct (final w st1) as [[[]|e] st2]; by etrans.
Qed.

Lemma respects_for_each {A} (l : list A) (body : A -> M unit) :
  (forall x, respects R w (body x)) -> respects R w (for_each l body).
Proof.
  intros Hb. induction l as [|x l IH]; [apply respects_ret|].
  apply respects_bind; [apply Hb|done].
Qed.

Lemma respects_for_fold {A S} (l : list A) (acc : S) (body : S -> A -> M S) :
  (forall acc x, respects R w (body acc x)) -> respects R w (for_fold l acc body).
Proof.
  intros Hb. revert acc. induction l as [|x l IH]; intros acc; [apply respects_ret|].
  apply respects_bind; [apply Hb|done].
Qed.

Lemma respects_getitem {V} (d : gmap string V) k : respects R w (getitem d k).
Proof. unfold getitem. destruct (d !! k); [apply respects_ret|apply respects_raise]. Qed.

Lemma respects_relation_set relation_id settings :
  ok (c_relation_set relation_id settings) -> okw settings ->
  respects R w (relation_set relation_id settings).
Proof.
  intros Hc Hs st. unfold relation_set. rewrite bind_emit.
  destruct (target_relation w relation_id) as [rid|].
  - etrans; [by apply R_record|by apply R_publish].
  - by apply R_record.
Qed.
End Respects.

Lemma bind_respects_inv (R : State -> State -> Prop) {A B}
    (m : M A) (k : A -> M B) w st r st' :
  respects R w m ->
  bind m k w st = (r, st') ->
  (exists a st1, m w st = (Ret a, st1) /\ R st st1 /\ k a w st1 = (r, st')) \/
  R st st'.
Proof.
  intros Hm H. specialize (Hm st).
  apply bind_inv in H as [(a & st1 & H1 & H)|(e & H1 & _)]; rewrite H1 in Hm.
  - left. eauto.
  - by right.
Qed.

#[local] Instance extends_by_refl ok : Reflexive (extends_by ok).
Proof. intros st. exists []. by rewrite app_nil_r. Qed.

#[local] Instance extends_by_trans ok : Transitive (extends_by ok).
Proof.
  intros st1 st2 st3 (e1 & H1 & F1) (e2 & H2 & F2).
  exists (e1 ++ e2). rewrite H2, H1, app_assoc. split; [done|by apply Forall_app].
Qed.

Lemma extends_by_record (ok : call -> Prop) c st : ok c -> extends_by ok st (record_call c st).
Proof. intros Hc. exists [c]. split; [done|by constructor]. Qed.

Lemma extends_by_publish ok rid settings st : extends_by ok st (publish rid settings st).
Proof. exists []. by rewrite app_nil_r. Qed.

Ltac head_of t :=
  lazymatch t with
  | ?f _ => head_of f
  | _ => t
  end.

(** Syntax-directed proof that a computation respects a relation; [rec]
    and [pub] are the facts about recording a call and publishing
    settings, and the conditions on the calls themselves are left over. *)
Ltac respects_step rec pub :=
  lazymatch goal with
  | |- respects ?R _ (bind _ _) => apply (respects_bind R)
  | |- respects ?R _ (ret _) => apply (respects_ret R)
  | |- respects ?R _ (raise _) => apply (respects_raise R)
  | |- respects ?R _ (snapshot _) => apply (respects_snapshot R)
  | |- respects ?R _ (emit _) => apply (respects_emit R _ rec)
  | |- respects ?R _ (fallible _) => apply (respects_fallible R _ rec)
  | |- respects ?R _ (query _ _) => apply (respects_query R _ rec)
  | |- respects ?R _ (fallible_query _ _) => apply (respects_fallible_query R _ rec)
  | |- respects ?R _ (try_except _ _) =>
      apply (respects_try_except R);
      [|let e := fresh "e" in
        let k := fresh "k" in
        let He := fresh "He" in
        intros e k He; destruct e; inversion He; subst; clear He]
  | |- respects ?R _ (try_finally _ _) => apply (respects_try_finally R)
  | |- respects ?R _ (for_each _ _) => apply (respects_for_each R)
  | |- respects ?R _ (for_fold _ _ _) => apply (respects_for_fold R)
  | |- respects ?R _ (getitem _ _) => apply (respects_getitem R)
  | |- respects ?R _ (relation_set _ _) => apply (respects_relation_set R _ _ rec pub)
  | |- respects _ _ (if ?b then _ else _) => destruct b
  | |- respects _ _ (match ?x with _ => _ end) => destruct x
  | |- respects _ _ ?m => let h := head_of m in progress unfold h
  end.

Ltac respects_with rec pub := repeat (intros; respects_step rec pub).

(** ** Two virtual IPs, one of them local *)

(** C6: in non-DNS-HA mode, with exactly two configured virtual IPs of
    which exactly one resolves to a local interface, [ha_joined] returns
    normally; the group it publishes names exactly one virtual-IP resource,
    the one of the resolvable address, and the resource map it publishes
    holds the load balancer, the service resource and that one virtual-IP
    resource, three entries in all; the parameters of the virtual-IP
    resource are the text [params ip="<address>" cidr_netmask="<netmask>"
    nic="<interface>"] of the resolvable address. *)
Theorem ha_joined_one_resolvable_vip
    (w : World) (st : State) (relation_id : option string) (rid : string)
    (vips v1 v2 local other iface : string) (netmask : option string)
    (bindiface mcastport : value) (i j : nat) :
  (forall h c, w_fault w h c = None) ->
  truthy (w_config w "dns-ha") = false ->
  target_relation w relation_id = Some rid ->
  index (w_os_release w (trace st ++ [c_get_hacluster_config]) "ceilometer-common")
        (OPENSTACK_RELEASES w) = Some i ->
  index "liberty" (OPENSTACK_RELEASES w) = Some j ->
  w_get_hacluster_config w (trace st) !! "vip" = Some (VStr vips) ->
  w_get_hacluster_config w (trace st) !! "ha-bindiface" = Some bindiface ->
  w_get_hacluster_config w (trace st) !! "ha-mcastport" = Some mcastport ->
  Py.split vips = [v1; v2] ->
  (v1 = local /\ v2 = other) \/ (v1 = other /\ v2 = local) ->
  (forall h, w_get_iface_for_address w h local = Some iface) ->
  (forall h, w_get_netmask_for_address w h local = netmask) ->
  (forall h, w_get_iface_for_address w h other = None) ->
  exists st' probes payload resources resource_params,
    ha_joined relation_id w st = (Ret tt, st') /\
    trace st' =
      trace st ++ [c_get_hacluster_config; c_os_release "ceilometer-common"] ++ probes
      ++ [c_relation_set relation_id
            {["groups" :=
                VDict {["grp_ceilometer_vips" := "res_ceilometer_" +:+ iface +:+ "_vip"]}]};
          c_relation_set relation_id payload] /\
    relation_writes probes = [] /\
    payload !! "resources" = Some (VDict resources) /\
    payload !! "resource_params" = Some (VDict resource_params) /\
    resources =
      {[ "res_ceilometer_" +:+ iface +:+ "_vip" := "ocf:heartbeat:IPaddr2";
         (if Nat.leb j i then "res_ceilometer_polling"
          else "res_ceilometer_agent_central") :=
           (if Nat.leb j i then "ocf:openstack:ceilometer-polling"
            else "ocf:openstack:ceilometer-agent-central");
         "res_ceilometer_haproxy" := "lsb:haproxy" ]} /\
    dom resources =
      {[ "res_ceilometer_haproxy";
         if Nat.leb j i then "res_ceilometer_polling" else "res_ceilometer_agent_central";
         "res_ceilometer_" +:+ iface +:+ "_vip" ]} /\
    size resources = 3 /\
    resources !! ("res_ceilometer_" +:+ iface +:+ "_vip") = Some "ocf:heartbeat:IPaddr2" /\
    resource_params !! ("res_ceilometer_" +:+ iface +:+ "_vip")
      = Some ("params ip=" +:+ quote_mark +:+ local +:+ quote_mark
              +:+ " cidr_netmask=" +:+ quote_mark
              +:+ (match netmask with Some mask => mask | None => "None" end)
              +:+ quote_mark
              +:+ " nic=" +:+ quote_mark +:+ iface +:+ quote_mark) /\
    dom resource_params = dom resources.
Proof.
  intros Hfault Hdns Hrid Hi Hj Hvip Hbind Hmcast Hsplit Horder Hlocal Hmask Hother.
  destruct (vip_resource_key_fresh iface) as (Hk1 & Hk2 & Hk3).
  assert (Hkey : (if Nat.leb j i then NEW_RES_KEY else LEGACY_RES_KEY)
                 <> "res_ceilometer_haproxy") by (by destruct (Nat.leb j i)).
  assert (Hvk : vip_resource_key iface
                <> (if Nat.leb j i then NEW_RES_KEY else LEGACY_RES_KEY))
    by (by destruct (Nat.leb j i)).
  assert (exists st', ha_joined relation_id w st = (Ret tt, st') /\
            exists probes,
            trace st' =
              trace st ++ [c_get_hacluster_config; c_os_release "ceilometer-common"]
              ++ probes
              ++ [c_relation_set relation_id
                    {["groups" :=
                        VDict {["grp_ceilometer_vips" := vip_resource_key iface]}]};
                  c_relation_set relation_id
                    (ha_settings bindiface mcastport
                       (<[vip_resource_key iface := "ocf:heartbeat:IPaddr2"]>
                          (base_resources
                             (if Nat.leb j i then NEW_RES_KEY else LEGACY_RES_KEY)))
                       (<[vip_resource_key iface :=
                            vip_resource_params local netmask iface]>
                          (base_resource_params
                             (if Nat.leb j i then NEW_RES_KEY else LEGACY_RES_KEY)
                             (ssl_port_of_last_unit w)))
                       (if Nat.leb j i then [LEGACY_RES_KEY] else []))] /\
            relation_writes probes = []) as (st' & Hrun & probes & Htrace & Hprobes).
  { unfold ha_joined. forward.
    unfold CompareOpenStackReleases_ge. forward.
    cbn [record_call trace]. rewrite Hi, Hj. forward.
    rewrite Hdns. unfold publish_vip_group. forward.
    unfold getitem at 1. rewrite Hvip. forward.
    rewrite Hsplit. cbn [for_fold].
    destruct Horder as [[-> ->]|[-> ->]].
    - unfold vip_step. forward. rewrite Hlocal. forward. rewrite Hother, Hmask. forward.
      cbn [v_vip_group v_resources v_resource_params app length Nat.leb Py.join].
      forward. unfold getitem. rewrite Hbind, Hmcast. forward.
      erewrite relation_set_run by eassumption.
      eexists. split; [reflexivity|]. eexists [_; _; _].
      split; [cbn; rewrite <- !app_assoc; reflexivity|reflexivity].
    - unfold vip_step. forward. rewrite Hother. forward. rewrite Hlocal. forward.
      rewrite Hmask. forward.
      cbn [v_vip_group v_resources v_resource_params app length Nat.leb Py.join].
      forward. unfold getitem. rewrite Hbind, Hmcast. forward.
      erewrite relation_set_run by eassumption.
      eexists. split; [reflexivity|]. eexists [_; _; _].
      split; [cbn; rewrite <- !app_assoc; reflexivity|reflexivity]. }
  eexists st', probes, _, _, _. split; [exact Hrun|].
  split; [exact Htrace|]. split; [exact Hprobes|].
  split; [reflexivity|]. split; [reflexivity|].
  change ("res_ceilometer_" +:+ iface +:+ "_vip") with (vip_resource_key iface).
  change "res_ceilometer_polling" with NEW_RES_KEY.
  change "res_ceilometer_agent_central" with LEGACY_RES_KEY.
  split; [by destruct (Nat.leb j i)|].
  unfold base_resources, base_resource_params.
  split; [set_eq_tac|].
  split.
  { rewrite !map_size_insert_None, map_size_singleton; [done| |].
    - by rewrite lookup_singleton_ne.
    - by rewrite lookup_insert_ne, lookup_singleton_ne. }
  split; [by rewrite lookup_insert_eq|].
  split; [rewrite lookup_insert_eq; by destruct netmask|].
  destruct (truthy_opt (ssl_port_of_last_unit w)); set_eq_tac.
Qed.

Lemma ha_joined_one_resolvable_vip_witness :
  exists st' probes payload resources resource_params,
    ha_joined None ha_world initial_state = (Ret tt, st') /\
    trace st' =
      trace initial_state
      ++ [c_get_hacluster_config; c_os_release "ceilometer-common"] ++ probes
      ++ [c_relation_set None
            {["groups" := VDict {["grp_ceilometer_vips" := "res_ceilometer_eth0_vip"]}]};
          c_relation_set None payload] /\
    relation_writes probes = [] /\
    payload !! "resources" = Some (VDict resources) /\
    payload !! "resource_params" = Some (VDict resource_params) /\
    resources =
      {[ "res_ceilometer_eth0_vip" := "ocf:heartbeat:IPaddr2";
         "res_ceilometer_polling" := "ocf:openstack:ceilometer-polling";
         "res_ceilometer_haproxy" := "lsb:haproxy" ]} /\
    dom resources =
      {[ "res_ceilometer_haproxy"; "res_ceilometer_polling"; "res_ceilometer_eth0_vip" ]} /\
    size resources = 3 /\
    resources !! "res_ceilometer_eth0_vip" = Some "ocf:heartbeat:IPaddr2" /\
    resource_params !! "res_ceilometer_eth0_vip"
      = Some ("params ip=" +:+ quote_mark +:+ "10.5.100.1" +:+ quote_mark
              +:+ " cidr_netmask=" +:+ quote_mark +:+ "255.255.255.0" +:+ quote_mark
              +:+ " nic=" +:+ quote_mark +:+ "eth0" +:+ quote_mark) /\
    dom resource_params = dom resources.
Proof.
  apply (ha_joined_one_resolvable_vip ha_world initial_state None "ha:0"
           "10.5.100.1 10.99.0.1" "10.5.100.1" "10.99.0.1" "10.5.100.1" "10.99.0.1"
           "eth0" (Some "255.255.255.0") (VStr "eth0") (VInt 5403) 4 3).
  - reflexivity.
  - reflexivity.
  - reflexivity.
  - reflexivity.
  - reflexivity.
  - reflexivity.
  - reflexivity.
  - reflexivity.
  - reflexivity.
  - left. split; reflexivity.
  - reflexivity.
  - reflexivity.
  - reflexivity.
Defined.
(** ** The group write of [ha_joined] *)

#[local] Instance groups_untouched_refl : Reflexive groups_untouched.
Proof. intros st. split; [reflexivity|done]. Qed.

#[local] Instance groups_untouched_trans : Transitive groups_untouched.
Proof.
  intros st1 st2 st3 [E1 P1] [E2 P2]. split; [by etrans|].
  intros rid. by rewrite P2, P1.
Qed.

Lemma groups_untouched_record c st :
  ~ writes_groups c -> groups_untouched st (record_call c st).
Proof. intros Hc. split; [by apply extends_by_record|done]. Qed.

Lemma groups_untouched_publish rid settings st :
  settings !! "groups" = None -> groups_untouched st (publish rid settings st).
Proof.
  intros Hs. split; [apply extends_by_publish|].
  intros rid'. unfold published_groups, publish. cbn [relations].
  destruct (decide (rid = rid')) as [->|Hne].
  - rewrite lookup_insert_eq. cbn. rewrite lookup_apply_settings by done.
    by destruct (relations st !! rid').
  - by rewrite lookup_insert_ne.
Qed.

(** The loop over the configured virtual IPs when none of them resolves:
    the local variables come out as they went in. *)
Lemma vip_loop_unresolvable w vips vars st r st' :
  (forall v, v ∈ vips -> forall h, w_get_iface_for_address w h v = None) ->
  for_fold vips vars vip_step w st = (r, st') ->
  groups_untouched st st' /\ forall vars', r = Ret vars' -> vars' = vars.
Proof.
  revert st. induction vips as [|v vips IH]; intros st Hnone H.
  - inversion H. split; [reflexivity|]. by intros ? [= ->].
  - cbn [for_fold] in H.
    apply bind_inv in H as [(vars1 & st1 & H1 & H)|(e & H1 & ->)].
    + unfold vip_step, get_iface_for_address in H1.
      apply bind_ret_inv in H1 as (iface & st2 & Hq & H1).
      apply fallible_query_ret_inv in Hq as (_ & -> & ->).
      rewrite Hnone in H1 by left. inversion H1; subst.
      apply IH in H as [HG Hv]; [|intros; apply Hnone; by right].
      split; [|done].
      etrans; [|exact HG]. apply groups_untouched_record; by intros [].
    + split; [|done]. unfold vip_step in H1.
      apply bind_inv in H1 as [(iface & st2 & Hq & H1)|(e' & Hq & _)].
      * apply fallible_query_ret_inv in Hq as (_ & -> & ->).
        rewrite Hnone in H1 by left. inversion H1.
      * unfold get_iface_for_address, fallible_query in Hq.
        destruct (w_fault _ _ _); inversion Hq.
        apply groups_untouched_record; by intros [].
Qed.

Ltac groups_respected :=
  respects_with groups_untouched_record groups_untouched_publish;
  try (by intros []); try reflexivity.

Tactic Notation "groups_step" hyp(H) hyp(G) "as" ident(a) ident(s) ident(Hm) :=
  let G1 := fresh "G" in
  let G2 := fresh "G" in
  apply (bind_respects_inv groups_untouched) in H
      as [(a & s & Hm & G1 & H)|G1];
  [pose proof (groups_untouched_trans _ _ _ G G1) as G2; clear G G1; rename G2 into G
  |by eapply groups_untouched_trans
  |try groups_respected].

(** C10: in non-DNS-HA mode, when no configured virtual IP resolves to a
    local interface, [ha_joined] makes no call that writes the [groups] key,
    and the [groups] value published on every relation is what it was
    before, whether the handler returns or raises. *)
Theorem ha_joined_no_group_write
    (w : World) (st : State) (relation_id : option string) :
  truthy (w_config w "dns-ha") = false ->
  (forall vips v,
      w_get_hacluster_config w (trace st) !! "vip" = Some (VStr vips) ->
      v ∈ Py.split vips ->
      forall h, w_get_iface_for_address w h v = None) ->
  groups_untouched st (ha_joined relation_id w st).2.
Proof.
  intros Hdns Hnone.
  destruct (ha_joined relation_id w st) as [r st'] eqn:H. cbn [snd].
  unfold ha_joined in H.
  assert (G : groups_untouched st st) by reflexivity.
  groups_step H G as cfg st1 H1.
  apply fallible_query_ret_inv in H1 as (_ & -> & _).
  groups_step H G as release st2 H2. clear H2.
  groups_step H G as current st3 H3. clear H3.
  rewrite bind_read_amqp_ssl_port in H.
  unfold config in H. rewrite bind_snapshot, Hdns in H.
  unfold publish_vip_group in H. rewrite !bind_assoc in H.
  groups_step H G as vip st4 H4.
  apply getitem_ret_inv in H4 as [Hvip ->].
  rewrite !bind_assoc in H.
  destruct vip as [| | |vips| |];
    try (rewrite bind_raise in H; inversion H; by subst).
  rewrite bind_ret, !bind_assoc in H.
  apply bind_inv in H as [(vars & st5 & H5 & H)|(e & H5 & _)];
    apply vip_loop_unresolvable in H5 as [G1 Hvars];
    try (intros; by eapply Hnone); [|by eapply groups_untouched_trans].
  rewrite (Hvars _ eq_refl) in H. cbn [v_vip_group length Nat.leb] in H.
  pose proof (groups_untouched_trans _ _ _ G G1) as G2. clear G G1 Hvars.
  rewrite !bind_assoc, !bind_ret in H.
  groups_step H G2 as bindiface st6 H6. clear H6.
  groups_step H G2 as mcastport st7 H7. clear H7.
  eapply groups_untouched_trans; [exact G2|].
  change st' with (r, st').2. rewrite <- H.
  apply (respects_relation_set groups_untouched _ _
           groups_untouched_record groups_untouched_publish).
  - intros [v Hv]. discriminate Hv.
  - reflexivity.
Qed.

Lemma ha_joined_no_group_write_witness :
  groups_untouched state_with_groups
    (ha_joined None ha_world_no_local_vip state_with_groups).2.
Proof.
  apply (ha_joined_no_group_write ha_world_no_local_vip state_with_groups None).
  - reflexivity.
  - intros vips v _ _ h. reflexivity.
Defined.

(** In that run the handler returns, and the group published by the
    earlier run is still on the relation. *)
Example ha_joined_keeps_old_group :
  (ha_joined None ha_world_no_local_vip state_with_groups).1 = Ret tt /\
  published_groups (ha_joined None ha_world_no_local_vip state_with_groups).2 "ha:0"
  = Some (VDict {["grp_ceilometer_vips" := "res_ceilometer_eth0_vip"]}).
Proof. split; vm_compute; reflexivity. Qed.
(** ** What a returning [ha_joined] has done *)

Lemma relation_writes_app evs1 evs2 :
  relation_writes (evs1 ++ evs2) = relation_writes evs1 ++ relation_writes evs2.
Proof. unfold relation_writes. apply omap_app. Qed.

Lemma record_calls_nil st : record_calls [] st = st.
Proof. destruct st. unfold record_calls. cbn. by rewrite app_nil_r. Qed.

Lemma record_calls_record cs c st :
  record_call c (record_calls cs st) = record_calls (cs ++ [c]) st.
Proof. unfold record_call, record_calls. cbn. by rewrite app_assoc. Qed.

Lemma record_calls_cons c cs st :
  record_calls cs (record_call c st) = record_calls (c :: cs) st.
Proof. unfold record_call, record_calls. cbn. by rewrite <- app_assoc. Qed.

(** The loop over the configured virtual IPs, when it completes, has only
    probed addresses, and has left alone every entry whose key is not the
    key of a virtual-IP resource. *)
Lemma vip_loop_returns w vips vars st vars' st' :
  for_fold vips vars vip_step w st = (Ret vars', st') ->
  exists probes,
    st' = record_calls probes st /\
    relation_writes probes = [] /\
    forall k, (forall iface, k <> vip_resource_key iface) ->
              v_resources vars' !! k = v_resources vars !! k /\
              v_resource_params vars' !! k = v_resource_params vars !! k.
Proof.
  revert vars st. induction vips as [|v vips IH]; intros vars st H.
  - inversion H; subst. exists []. by rewrite record_calls_nil.
  - cbn [for_fold] in H. apply bind_ret_inv in H as (vars1 & st1 & H1 & H).
    apply IH in H as (probes & -> & Hw & Hk). clear IH.
    unfold vip_step, get_iface_for_address in H1.
    apply bind_ret_inv in H1 as (iface & st2 & Hq & H1).
    apply fallible_query_ret_inv in Hq as (_ & -> & ->).
    destruct (w_get_iface_for_address w (trace st) v) as [iface|].
    + unfold get_netmask_for_address in H1.
      apply bind_ret_inv in H1 as (netmask & st3 & Hq & H1).
      apply fallible_query_ret_inv in Hq as (_ & -> & ->).
      inversion H1; subst. clear H1.
      exists (c_get_iface_for_address v :: c_get_netmask_for_address v :: probes).
      rewrite !record_calls_cons. split; [done|]. split; [done|].
      intros k Hne. destruct (Hk k Hne) as [-> ->]. cbn.
      by rewrite !lookup_insert_ne by (apply not_eq_sym, Hne).
    + inversion H1; subst. clear H1.
      exists (c_get_iface_for_address v :: probes).
      rewrite !record_calls_cons. done.
Qed.

Lemma publish_vip_group_returns relation_id cfg resources resource_params w st maps st' :
  publish_vip_group relation_id cfg resources resource_params w st = (Ret maps, st') ->
  exists probes,
    relation_writes probes = [] /\
    (forall k, (forall iface, k <> vip_resource_key iface) ->
               maps.1 !! k = resources !! k /\ maps.2 !! k = resource_params !! k) /\
    (trace st' = trace st ++ probes \/
     exists group,
       trace st' = trace st ++ probes
                   ++ [c_relation_set relation_id
                         {["groups" := VDict {["grp_ceilometer_vips" := group]}]}]).
Proof.
  unfold publish_vip_group. intros H.
  apply bind_ret_inv in H as (vip & st1 & H1 & H).
  apply getitem_ret_inv in H1 as [_ ->].
  apply bind_ret_inv in H as (vips & st1 & H1 & H).
  assert (st1 = st) as -> by (destruct vip; by inversion H1). clear H1.
  apply bind_ret_inv in H as (vars & st1 & H1 & H).
  apply vip_loop_returns in H1 as (probes & -> & Hw & Hk).
  exists probes. split; [done|].
  apply bind_ret_inv in H as ([] & st2 & H2 & H).
  inversion H; subst. clear H. split; [exact Hk|].
  destruct (Nat.leb 1 (length (v_vip_group vars))).
  - apply relation_set_ret_inv in H2 as (rid & _ & ->). right.
    eexists. cbn. by rewrite <- app_assoc.
  - inversion H2; subst. by left.
Qed.

Lemma ha_joined_returns relation_id w st st' :
  ha_joined relation_id w st = (Ret tt, st') ->
  exists i j maps st1 rid bindiface mcastport,
    let cfg := w_get_hacluster_config w (trace st) in
    let RES_KEY := if Nat.leb j i then NEW_RES_KEY else LEGACY_RES_KEY in
    let resources := base_resources RES_KEY in
    let resource_params := base_resource_params RES_KEY (ssl_port_of_last_unit w) in
    let settings :=
      ha_settings bindiface mcastport maps.1 maps.2
                  (if Nat.leb j i then [LEGACY_RES_KEY] else []) in
    index (w_os_release w (trace st ++ [c_get_hacluster_config]) "ceilometer-common")
          (OPENSTACK_RELEASES w) = Some i /\
    index "liberty" (OPENSTACK_RELEASES w) = Some j /\
    (if truthy (w_config w "dns-ha")
     then update_dns_ha_resource_params relation_id resources resource_params
     else publish_vip_group relation_id cfg resources resource_params)
      w (record_call (c_os_release "ceilometer-common")
                     (record_call c_get_hacluster_config st))
    = (Ret maps, st1) /\
    cfg !! "ha-bindiface" = Some bindiface /\
    cfg !! "ha-mcastport" = Some mcastport /\
    target_relation w relation_id = Some rid /\
    st' = publish rid settings (record_call (c_relation_set relation_id settings) st1).
Proof.
  unfold ha_joined. intros H.
  apply bind_ret_inv in H as (cfg & st1 & H1 & H).
  apply fallible_query_ret_inv in H1 as (_ & -> & ->).
  unfold os_release in H. rewrite bind_query in H.
  unfold CompareOpenStackReleases_ge in H. rewrite bind_assoc, bind_snapshot in H.
  cbn [record_call trace] in H.
  destruct (index (w_os_release w _ _) _) as [i|] eqn:Hi; [|by rewrite bind_raise in H].
  destruct (index "liberty" _) as [j|] eqn:Hj; [|by rewrite bind_raise in H].
  rewrite bind_ret, bind_read_amqp_ssl_port in H.
  unfold config in H. rewrite bind_snapshot in H.
  apply bind_ret_inv in H as (maps & st1 & H1 & H).
  apply bind_ret_inv in H as (bindiface & st2 & H2 & H).
  apply getitem_ret_inv in H2 as [Hb ->].
  apply bind_ret_inv in H as (mcastport & st2 & H2 & H).
  apply getitem_ret_inv in H2 as [Hm ->].
  apply relation_set_ret_inv in H as (rid & Hrid & ->).
  exists i, j, maps, st1, rid, bindiface, mcastport. cbn zeta.
  repeat split; try done.
Qed.

Lemma update_dns_ha_returns relation_id resources resource_params w st maps st' :
  update_dns_ha_resource_params relation_id resources resource_params w st
  = (Ret maps, st') ->
  exists evs,
    trace st' = trace st
                ++ c_update_dns_ha_resource_params relation_id resources resource_params
                   :: evs.
Proof.
  unfold update_dns_ha_resource_params. intros H.
  apply bind_ret_inv in H as (r & st1 & H1 & H).
  apply fallible_query_ret_inv in H1 as (_ & -> & ->).
  apply bind_ret_inv in H as ([] & st2 & H2 & H).
  inversion H; subst. clear H.
  assert (extends_by (fun _ => True)
            (record_call (c_update_dns_ha_resource_params relation_id resources
                            resource_params) st) st') as (evs & Hevs & _).
  { change st' with (Ret (), st').2. rewrite <- H2.
    apply (respects_for_each (extends_by (fun _ => True))).
    intros settings.
    apply (respects_relation_set (extends_by (fun _ => True)) (fun _ => True)
             (fun _ => True)); try done.
    - intros. by apply extends_by_record.
    - intros. apply extends_by_publish. }
  exists evs. rewrite Hevs. cbn. by rewrite <- app_assoc.
Qed.

(** What a returning [ha_joined] has done, in one statement: the
    last call of a returning [ha_joined] is the relation-set of
    [ha_settings]; without DNS HA whatever precedes it writes at most the
    [groups] key, and the maps published agree with the base maps on every
    key that is not the key of a virtual-IP resource; with DNS HA the base
    maps are what the parameter builder was handed. *)
Lemma ha_joined_published relation_id w st st' :
  ha_joined relation_id w st = (Ret tt, st') ->
  exists i j earlier maps bindiface mcastport,
    let RES_KEY := if Nat.leb j i then NEW_RES_KEY else LEGACY_RES_KEY in
    let resources := base_resources RES_KEY in
    let resource_params := base_resource_params RES_KEY (ssl_port_of_last_unit w) in
    index (w_os_release w (trace st ++ [c_get_hacluster_config]) "ceilometer-common")
          (OPENSTACK_RELEASES w) = Some i /\
    index "liberty" (OPENSTACK_RELEASES w) = Some j /\
    trace st' =
      trace st ++ earlier
      ++ [c_relation_set relation_id
            (ha_settings bindiface mcastport maps.1 maps.2
                         (if Nat.leb j i then [LEGACY_RES_KEY] else []))] /\
    (truthy (w_config w "dns-ha") = false ->
     (relation_writes earlier = [] \/
      exists group,
        relation_writes earlier =
          [(relation_id, {["groups" := VDict {["grp_ceilometer_vips" := group]}]})]) /\
     forall k, (forall iface, k <> vip_resource_key iface) ->
               maps.1 !! k = resources !! k /\ maps.2 !! k = resource_params !! k) /\
    (truthy (w_config w "dns-ha") = true ->
     c_update_dns_ha_resource_params relation_id resources resource_params ∈ earlier).
Proof.
  intros H.
  apply ha_joined_returns in H
      as (i & j & maps & st1 & rid & bindiface & mcastport
          & Hi & Hj & H & _ & _ & _ & ->).
  cbn [publish record_call trace].
  destruct (truthy (w_config w "dns-ha")).
  - apply update_dns_ha_returns in H as (evs & ->). cbn [record_call trace].
    eexists i, j, (_ :: _ :: _ :: evs), maps, bindiface, mcastport. cbn zeta.
    split; [done|]. split; [done|]. split.
    { rewrite <- !app_assoc. cbn. reflexivity. }
    split; [done|]. intros _. set_solver.
  - apply publish_vip_group_returns in H as (probes & Hw & Hk & [->|(group & ->)]);
      cbn [record_call trace].
    + eexists i, j, (_ :: _ :: probes), maps, bindiface, mcastport. cbn zeta.
      split; [done|]. split; [done|]. split.
      { rewrite <- !app_assoc. cbn. reflexivity. }
      split; [|done]. intros _. split; [by left|exact Hk].
    + eexists i, j, (_ :: _ :: probes ++ [_]), maps, bindiface, mcastport. cbn zeta.
      split; [done|]. split; [done|]. split.
      { rewrite <- !app_assoc. cbn. rewrite <- !app_assoc. reflexivity. }
      split; [|done]. intros _. split; [|exact Hk]. right. exists group.
      change (relation_writes (?a :: ?b :: ?l)) with (relation_writes l).
      by rewrite relation_writes_app, Hw.
Qed.

(** What the loop over the configured virtual IPs has built when it
    completes: the keys it has added to the group, in order, are keys of
    virtual-IP resources of addresses that resolved; under each of them
    the resource map has the resource type and the parameter map the
    parameters of such an address; every other entry is as it was. *)
Lemma vip_loop_built w vips vars st vars' st' :
  for_fold vips vars vip_step w st = (Ret vars', st') ->
  exists answers keys,
    Forall2 (fun vip answer => exists h, w_get_iface_for_address w h vip = answer)
            vips answers /\
    keys = omap (fun answer =>
                   (fun iface => "res_ceilometer_" +:+ iface +:+ "_vip") <$> answer)
                answers /\
    v_vip_group vars' = v_vip_group vars ++ keys /\
    (forall k, k ∉ keys ->
       v_resources vars' !! k = v_resources vars !! k /\
       v_resource_params vars' !! k = v_resource_params vars !! k) /\
    (forall k, k ∈ keys ->
       v_resources vars' !! k = Some "ocf:heartbeat:IPaddr2" /\
       exists vip iface h h',
         vip ∈ vips /\
         w_get_iface_for_address w h vip = Some iface /\
         k = "res_ceilometer_" +:+ iface +:+ "_vip" /\
         v_resource_params vars' !! k =
           Some ("params ip=" +:+ quote_mark +:+ vip +:+ quote_mark
                 +:+ " cidr_netmask=" +:+ quote_mark
                 +:+ (match w_get_netmask_for_address w h' vip with
                      | Some mask => mask
                      | None => "None"
                      end)
                 +:+ quote_mark
                 +:+ " nic=" +:+ quote_mark +:+ iface +:+ quote_mark)).
Proof.
  revert vars st. induction vips as [|v vips IH]; intros vars st H.
  - inversion H; subst. exists [], []. rewrite app_nil_r.
    split; [constructor|]. split; [done|].
    split; [done|]. split; [done|]. intros k Hk. by apply elem_of_nil in Hk.
  - cbn [for_fold] in H. apply bind_ret_inv in H as (vars1 & st1 & H1 & H).
    apply IH in H as (answers & keys & Hans & Hkeys & Hg & Hout & Hin). clear IH.
    unfold vip_step, get_iface_for_address in H1.
    apply bind_ret_inv in H1 as (answer & st2 & Hq & H1).
    apply fallible_query_ret_inv in Hq as (_ & -> & ->).
    destruct (w_get_iface_for_address w (trace st) v) as [iface|] eqn:Hif.
    + unfold get_netmask_for_address in H1.
      apply bind_ret_inv in H1 as (netmask & st3 & Hq & H1).
      apply fallible_query_ret_inv in Hq as (_ & -> & ->).
      inversion H1; subst vars1 st1. clear H1.
      cbn [v_vip_group v_resources v_resource_params] in Hg, Hout.
      exists (Some iface :: answers), (vip_resource_key iface :: keys).
      split; [constructor; [by exists (trace st)|exact Hans]|].
      split; [by rewrite Hkeys|].
      split; [by rewrite Hg, <- app_assoc|]. split.
      * intros k Hk. apply not_elem_of_cons in Hk as [Hne Hk].
        destruct (Hout k Hk) as [-> ->]. by rewrite !lookup_insert_ne.
      * intros k Hk. destruct (decide (k ∈ keys)) as [Hk'|Hk'].
        -- destruct (Hin k Hk') as (Hr & vip & iface' & h & h' & Hv & Hrest).
           split; [done|]. exists vip, iface', h, h'. split; [by right|done].
        -- apply elem_of_cons in Hk as [->|Hk]; [|done].
           destruct (Hout _ Hk') as [-> ->]. rewrite !lookup_insert_eq.
           split; [done|].
           exists v, iface, (trace st),
                  (trace (record_call (c_get_iface_for_address v) st)).
           split; [by left|]. split; [done|]. split; [done|].
           by destruct (w_get_netmask_for_address w _ v).
    + inversion H1; subst vars1 st1. clear H1. exists (None :: answers), keys.
      split; [constructor; [by exists (trace st)|exact Hans]|].
      split; [exact Hkeys|].
      split; [done|]. split; [done|].
      intros k Hk. destruct (Hin k Hk) as (Hr & vip & iface' & h & h' & Hv & Hrest).
      split; [done|]. exists vip, iface', h, h'. split; [by right|done].
Qed.

Lemma publish_vip_group_built relation_id cfg resources resource_params w st maps st' :
  publish_vip_group relation_id cfg resources resource_params w st = (Ret maps, st') ->
  exists vips answers keys probes,
    cfg !! "vip" = Some (VStr vips) /\
    Forall2 (fun vip answer => exists h, w_get_iface_for_address w h vip = answer)
            (Py.split vips) answers /\
    keys = omap (fun answer =>
                   (fun iface => "res_ceilometer_" +:+ iface +:+ "_vip") <$> answer)
                answers /\
    relation_writes probes = [] /\
    trace st' =
      trace st ++ probes
      ++ match keys with
         | [] => []
         | _ => [c_relation_set relation_id
                   {["groups" := VDict {["grp_ceilometer_vips" := Py.join " " keys]}]}]
         end /\
    (forall k, k ∉ keys ->
       maps.1 !! k = resources !! k /\ maps.2 !! k = resource_params !! k) /\
    (forall k, k ∈ keys ->
       maps.1 !! k = Some "ocf:heartbeat:IPaddr2" /\
       exists vip iface h h',
         vip ∈ Py.split vips /\
         w_get_iface_for_address w h vip = Some iface /\
         k = "res_ceilometer_" +:+ iface +:+ "_vip" /\
         maps.2 !! k =
           Some ("params ip=" +:+ quote_mark +:+ vip +:+ quote_mark
                 +:+ " cidr_netmask=" +:+ quote_mark
                 +:+ (match w_get_netmask_for_address w h' vip with
                      | Some mask => mask
                      | None => "None"
                      end)
                 +:+ quote_mark
                 +:+ " nic=" +:+ quote_mark +:+ iface +:+ quote_mark)).
Proof.
  unfold publish_vip_group. intros H.
  apply bind_ret_inv in H as (vip & st1 & H1 & H).
  apply getitem_ret_inv in H1 as [Hvip ->].
  apply bind_ret_inv in H as (vips & st1 & H1 & H).
  destruct vip as [| | |text| |]; try (by inversion H1).
  inversion H1; subst. clear H1.
  apply bind_ret_inv in H as (vars & st2 & H1 & H).
  pose proof (vip_loop_built _ _ _ _ _ _ H1)
    as (answers & keys & Hans & Hkeys & Hg & Hout & Hin).
  apply vip_loop_returns in H1 as (probes & -> & Hw & _).
  apply bind_ret_inv in H as ([] & st3 & H2 & H).
  injection H as <- <-. cbn [fst snd].
  cbn [v_vip_group app v_resources v_resource_params] in Hg, Hout.
  exists text, answers, keys, probes. split; [exact Hvip|].
  split; [exact Hans|]. split; [exact Hkeys|]. split; [exact Hw|].
  split; [|split; [exact Hout|exact Hin]].
  rewrite Hg in H2. clear Hkeys.
  destruct keys as [|key keys]; cbn [length Nat.leb] in H2.
  - inversion H2; subst. by rewrite app_nil_r.
  - apply relation_set_ret_inv in H2 as (rid & _ & ->). cbn.
    by rewrite <- app_assoc.
Qed.

Lemma update_dns_ha_built relation_id resources resource_params w st maps st' :
  update_dns_ha_resource_params relation_id resources resource_params w st
  = (Ret maps, st') ->
  maps = (w_update_dns_ha w (trace st) relation_id resources resource_params).1.
Proof.
  unfold update_dns_ha_resource_params. intros H.
  apply bind_ret_inv in H as (r & st1 & H1 & H).
  apply fallible_query_ret_inv in H1 as (_ & -> & ->).
  apply bind_ret_inv in H as ([] & st2 & _ & H).
  by inversion H.
Qed.

(** The texts of lines 301-320 of [ha_joined]. *)
Lemma base_resources_text (current : bool) :
  base_resources (if current then NEW_RES_KEY else LEGACY_RES_KEY)
  = {[ (if current then "res_ceilometer_polling" else "res_ceilometer_agent_central") :=
         (if current then "ocf:openstack:ceilometer-polling"
          else "ocf:openstack:ceilometer-agent-central");
       "res_ceilometer_haproxy" := "lsb:haproxy" ]}.
Proof. by destruct current. Qed.

Lemma base_resource_params_text key port :
  base_resource_params key port
  = {[ key :=
         match port with
         | Some port =>
             if String.eqb port EmptyString
             then "op monitor interval=" +:+ quote_mark +:+ "30s" +:+ quote_mark
             else "params amqp_server_port=" +:+ quote_mark +:+ port +:+ quote_mark
                  +:+ " op monitor interval=" +:+ quote_mark +:+ "30s" +:+ quote_mark
         | None => "op monitor interval=" +:+ quote_mark +:+ "30s" +:+ quote_mark
         end;
       "res_ceilometer_haproxy" :=
         "op monitor interval=" +:+ quote_mark +:+ "5s" +:+ quote_mark ]}.
Proof.
  unfold base_resource_params. destruct port as [port|]; cbn [truthy_opt]; [|done].
  destruct (String.eqb port ""); cbn [negb]; [done|].
  by rewrite insert_insert_eq.
Qed.

(** C2, as the code has it: a returning [ha_joined] ends with one
    relation-set whose settings are exactly the seven keys
    [init_services], [corosync_bindiface], [corosync_mcastport],
    [resources], [resource_params], [delete_resources] and [clones]: the
    init-services name of the load balancer, the bindiface and mcastport
    of the cluster configuration, the clone of the load balancer, the
    deletion list of the installed generation, and the resource map and
    resource parameters the handler has built.  Without DNS HA these two
    hold the load balancer, the service resource and one virtual-IP
    resource for every key of the group, the keys of the group being
    those of the configured addresses that resolved, in order, and the
    group itself is not in that write: it is published, when it is not empty, by the only other
    relation-set, an earlier one that carries the [groups] key alone.
    With DNS HA the two maps are what the parameter builder makes of the
    load balancer and the service resource. *)
Theorem ha_joined_final_write
    (w : World) (st st' : State) (relation_id : option string) :
  ha_joined relation_id w st = (Ret tt, st') ->
  exists earlier settings resources resource_params bindiface mcastport
         key ocf deleted service_params i j,
    trace st' = trace st ++ earlier ++ [c_relation_set relation_id settings] /\
    settings =
      {[ "init_services" := VDict {["res_ceilometer_haproxy" := "haproxy"]};
         "corosync_bindiface" := bindiface;
         "corosync_mcastport" := mcastport;
         "resources" := VDict resources;
         "resource_params" := VDict resource_params;
         "delete_resources" := VList deleted;
         "clones" := VDict {["cl_ceilometer_haproxy" := "res_ceilometer_haproxy"]} ]} /\
    settings !! "groups" = None /\
    w_get_hacluster_config w (trace st) !! "ha-bindiface" = Some bindiface /\
    w_get_hacluster_config w (trace st) !! "ha-mcastport" = Some mcastport /\
    index (w_os_release w (trace st ++ [c_get_hacluster_config]) "ceilometer-common")
          (OPENSTACK_RELEASES w) = Some i /\
    index "liberty" (OPENSTACK_RELEASES w) = Some j /\
    ((j <= i /\ key = "res_ceilometer_polling"
      /\ ocf = "ocf:openstack:ceilometer-polling"
      /\ deleted = ["res_ceilometer_agent_central"]) \/
     (i < j /\ key = "res_ceilometer_agent_central"
      /\ ocf = "ocf:openstack:ceilometer-agent-central"
      /\ deleted = [])) /\
    service_params =
      match ssl_port_of_last_unit w with
       | Some port =>
           if String.eqb port EmptyString
           then "op monitor interval=" +:+ quote_mark +:+ "30s" +:+ quote_mark
           else "params amqp_server_port=" +:+ quote_mark +:+ port +:+ quote_mark
                +:+ " op monitor interval=" +:+ quote_mark +:+ "30s" +:+ quote_mark
       | None => "op monitor interval=" +:+ quote_mark +:+ "30s" +:+ quote_mark
       end /\
    (truthy (w_config w "dns-ha") = false ->
     exists vips answers vip_keys,
       w_get_hacluster_config w (trace st) !! "vip" = Some (VStr vips) /\
       Forall2 (fun vip answer => exists h, w_get_iface_for_address w h vip = answer)
               (Py.split vips) answers /\
       vip_keys = omap (fun answer =>
                          (fun iface => "res_ceilometer_" +:+ iface +:+ "_vip")
                            <$> answer) answers /\
       relation_writes earlier =
         match vip_keys with
         | [] => []
         | _ => [(relation_id,
                  {["groups" :=
                      VDict {["grp_ceilometer_vips" := Py.join " " vip_keys]}]})]
         end /\
       (forall k, k ∉ vip_keys ->
          resources !! k
          = ({[ key := ocf; "res_ceilometer_haproxy" := "lsb:haproxy" ]}
               : gmap string string) !! k /\
          resource_params !! k
          = ({[ key := service_params;
                "res_ceilometer_haproxy" :=
                  "op monitor interval=" +:+ quote_mark +:+ "5s" +:+ quote_mark ]}
               : gmap string string) !! k) /\
       (forall k, k ∈ vip_keys ->
          resources !! k = Some "ocf:heartbeat:IPaddr2" /\
          exists vip iface h h',
            vip ∈ Py.split vips /\
            w_get_iface_for_address w h vip = Some iface /\
            k = "res_ceilometer_" +:+ iface +:+ "_vip" /\
            resource_params !! k =
              Some ("params ip=" +:+ quote_mark +:+ vip +:+ quote_mark
                    +:+ " cidr_netmask=" +:+ quote_mark
                    +:+ (match w_get_netmask_for_address w h' vip with
                         | Some mask => mask
                         | None => "None"
                         end)
                    +:+ quote_mark
                    +:+ " nic=" +:+ quote_mark +:+ iface +:+ quote_mark))) /\
    (truthy (w_config w "dns-ha") = true ->
     c_update_dns_ha_resource_params relation_id
       {[ key := ocf; "res_ceilometer_haproxy" := "lsb:haproxy" ]}
       {[ key := service_params;
          "res_ceilometer_haproxy" :=
            "op monitor interval=" +:+ quote_mark +:+ "5s" +:+ quote_mark ]}
       ∈ earlier /\
     exists h,
       (resources, resource_params) =
         (w_update_dns_ha w h relation_id
            {[ key := ocf; "res_ceilometer_haproxy" := "lsb:haproxy" ]}
            {[ key := service_params;
               "res_ceilometer_haproxy" :=
                 "op monitor interval=" +:+ quote_mark +:+ "5s" +:+ quote_mark ]}).1).
Proof.
  intros H.
  apply ha_joined_returns in H
      as (i & j & maps & st1 & rid & bindiface & mcastport
          & Hi & Hj & H & Hb & Hm & _ & ->).
  cbn [publish record_call trace].
  rewrite base_resources_text, base_resource_params_text in H.
  unfold NEW_RES_KEY, LEGACY_RES_KEY in *.
  set (key := if Nat.leb j i then "res_ceilometer_polling"
              else "res_ceilometer_agent_central") in *.
  set (ocf := if Nat.leb j i then "ocf:openstack:ceilometer-polling"
              else "ocf:openstack:ceilometer-agent-central") in *.
  set (service_params := match ssl_port_of_last_unit w with
                         | Some port => _
                         | None => _
                         end) in *.
  assert (Hcase :
            (j <= i /\ key = "res_ceilometer_polling"
             /\ ocf = "ocf:openstack:ceilometer-polling"
             /\ (if Nat.leb j i then ["res_ceilometer_agent_central"] else [])
                = ["res_ceilometer_agent_central"]) \/
            (i < j /\ key = "res_ceilometer_agent_central"
             /\ ocf = "ocf:openstack:ceilometer-agent-central"
             /\ (if Nat.leb j i then ["res_ceilometer_agent_central"] else []) = [])).
  { unfold key, ocf. destruct (Nat.leb j i) eqn:E.
    - left. apply Nat.leb_le in E. done.
    - right. apply Nat.leb_gt in E. done. }
  destruct (truthy (w_config w "dns-ha")).
  - pose proof (update_dns_ha_built _ _ _ _ _ _ _ H) as Hmaps.
    apply update_dns_ha_returns in H as (evs & ->). cbn [record_call trace].
    eexists (_ :: _ :: _ :: evs), _, maps.1, maps.2, bindiface, mcastport,
            key, ocf, _, service_params, i, j.
    split; [rewrite <- !app_assoc; cbn [app]; reflexivity|].
    split; [reflexivity|]. split; [reflexivity|].
    split; [exact Hb|]. split; [exact Hm|]. split; [exact Hi|]. split; [exact Hj|].
    split; [exact Hcase|]. split; [reflexivity|]. split; [done|].
    intros _. split; [do 2 apply list_elem_of_further; apply list_elem_of_here|].
    eexists. rewrite <- Hmaps. by destruct maps.
  - apply publish_vip_group_built in H
        as (vips & answers & keys & probes
            & Hvip & Hans & Hkeys & Hw & -> & Hout & Hin).
    cbn [record_call trace].
    eexists (c_get_hacluster_config :: c_os_release "ceilometer-common"
             :: probes
             ++ match keys with
                | [] => []
                | _ => [c_relation_set relation_id
                          {["groups" :=
                              VDict {["grp_ceilometer_vips" := Py.join " " keys]}]}]
                end),
            _, maps.1, maps.2, bindiface, mcastport,
            key, ocf, _, service_params, i, j.
    split; [rewrite <- !app_assoc; cbn [app]; rewrite <- !app_assoc; reflexivity|].
    split; [reflexivity|]. split; [reflexivity|].
    split; [exact Hb|]. split; [exact Hm|]. split; [exact Hi|]. split; [exact Hj|].
    split; [exact Hcase|]. split; [reflexivity|]. split; [|done].
    intros _. exists vips, answers, keys. split; [exact Hvip|].
    split; [exact Hans|]. split; [exact Hkeys|].
    split; [|split; [exact Hout|exact Hin]]. clear Hkeys.
    change (relation_writes (?a :: ?b :: ?l)) with (relation_writes l).
    rewrite relation_writes_app, Hw. by destruct keys.
Qed.

Lemma ha_joined_final_write_witness :
  exists earlier settings resources resource_params bindiface mcastport
         key ocf deleted service_params i j,
    trace ha_run.2 = trace initial_state ++ earlier ++ [c_relation_set None settings] /\
    settings =
      {[ "init_services" := VDict {["res_ceilometer_haproxy" := "haproxy"]};
         "corosync_bindiface" := bindiface;
         "corosync_mcastport" := mcastport;
         "resources" := VDict resources;
         "resource_params" := VDict resource_params;
         "delete_resources" := VList deleted;
         "clones" := VDict {["cl_ceilometer_haproxy" := "res_ceilometer_haproxy"]} ]} /\
    settings !! "groups" = None /\
    w_get_hacluster_config ha_world (trace initial_state) !! "ha-bindiface" = Some bindiface /\
    w_get_hacluster_config ha_world (trace initial_state) !! "ha-mcastport" = Some mcastport /\
    index (w_os_release ha_world (trace initial_state ++ [c_get_hacluster_config]) "ceilometer-common")
          (OPENSTACK_RELEASES ha_world) = Some i /\
    index "liberty" (OPENSTACK_RELEASES ha_world) = Some j /\
    ((j <= i /\ key = "res_ceilometer_polling"
      /\ ocf = "ocf:openstack:ceilometer-polling"
      /\ deleted = ["res_ceilometer_agent_central"]) \/
     (i < j /\ key = "res_ceilometer_agent_central"
      /\ ocf = "ocf:openstack:ceilometer-agent-central"
      /\ deleted = [])) /\
    service_params =
      match ssl_port_of_last_unit ha_world with
       | Some port =>
           if String.eqb port EmptyString
           then "op monitor interval=" +:+ quote_mark +:+ "30s" +:+ quote_mark
           else "params amqp_server_port=" +:+ quote_mark +:+ port +:+ quote_mark
                +:+ " op monitor interval=" +:+ quote_mark +:+ "30s" +:+ quote_mark
       | None => "op monitor interval=" +:+ quote_mark +:+ "30s" +:+ quote_mark
       end /\
    (truthy (w_config ha_world "dns-ha") = false ->
     exists vips answers vip_keys,
       w_get_hacluster_config ha_world (trace initial_state) !! "vip" = Some (VStr vips) /\
       Forall2 (fun vip answer => exists h, w_get_iface_for_address ha_world h vip = answer)
               (Py.split vips) answers /\
       vip_keys = omap (fun answer =>
                          (fun iface => "res_ceilometer_" +:+ iface +:+ "_vip")
                            <$> answer) answers /\
       relation_writes earlier =
         match vip_keys with
         | [] => []
         | _ => [(None,
                  {["groups" :=
                      VDict {["grp_ceilometer_vips" := Py.join " " vip_keys]}]})]
         end /\
       (forall k, k ∉ vip_keys ->
          resources !! k
          = ({[ key := ocf; "res_ceilometer_haproxy" := "lsb:haproxy" ]}
               : gmap string string) !! k /\
          resource_params !! k
          = ({[ key := service_params;
                "res_ceilometer_haproxy" :=
                  "op monitor interval=" +:+ quote_mark +:+ "5s" +:+ quote_mark ]}
               : gmap string string) !! k) /\
       (forall k, k ∈ vip_keys ->
          resources !! k = Some "ocf:heartbeat:IPaddr2" /\
          exists vip iface h h',
            vip ∈ Py.split vips /\
            w_get_iface_for_address ha_world h vip = Some iface /\
            k = "res_ceilometer_" +:+ iface +:+ "_vip" /\
            resource_params !! k =
              Some ("params ip=" +:+ quote_mark +:+ vip +:+ quote_mark
                    +:+ " cidr_netmask=" +:+ quote_mark
                    +:+ (match w_get_netmask_for_address ha_world h' vip with
                         | Some mask => mask
                         | None => "None"
                         end)
                    +:+ quote_mark
                    +:+ " nic=" +:+ quote_mark +:+ iface +:+ quote_mark))) /\
    (truthy (w_config ha_world "dns-ha") = true ->
     c_update_dns_ha_resource_params None
       {[ key := ocf; "res_ceilometer_haproxy" := "lsb:haproxy" ]}
       {[ key := service_params;
          "res_ceilometer_haproxy" :=
            "op monitor interval=" +:+ quote_mark +:+ "5s" +:+ quote_mark ]}
       ∈ earlier /\
     exists h,
       (resources, resource_params) =
         (w_update_dns_ha ha_world h None
            {[ key := ocf; "res_ceilometer_haproxy" := "lsb:haproxy" ]}
            {[ key := service_params;
               "res_ceilometer_haproxy" :=
                 "op monitor interval=" +:+ quote_mark +:+ "5s" +:+ quote_mark ]}).1).
Proof.
  apply (ha_joined_final_write ha_world initial_state ha_run.2 None).
  vm_compute. reflexivity.
Defined.


(** C2 as the spec states it fails: with one resolvable virtual IP the
    dispatch of ha-relation-joined writes the relation twice, first the
    [groups] key alone and then everything else, so that no single
    relation-set carries both the group and the resource map. *)
Lemma ha_joined_writes_twice :
  ha_run.1 = Ret tt /\
  relation_writes (trace ha_run.2) =
    [ (None, {["groups" := VDict {["grp_ceilometer_vips" := "res_ceilometer_eth0_vip"]}]});
      (None, ha_settings (VStr "eth0") (VInt 5403)
               (<["res_ceilometer_eth0_vip" := "ocf:heartbeat:IPaddr2"]>
                  (base_resources NEW_RES_KEY))
               (<["res_ceilometer_eth0_vip" :=
                    vip_resource_params "10.5.100.1" (Some "255.255.255.0") "eth0"]>
                  (base_resource_params NEW_RES_KEY None))
               [LEGACY_RES_KEY]) ] /\
  ~ (exists settings,
        relation_writes (trace ha_run.2) = [(None, settings)] /\
        is_Some (settings !! "groups") /\ is_Some (settings !! "resources")).
Proof.
  split; [vm_compute; reflexivity|].
  assert (relation_writes (trace ha_run.2)
          = [ (None, {["groups" := VDict {["grp_ceilometer_vips" := "res_ceilometer_eth0_vip"]}]});
              (None, ha_settings (VStr "eth0") (VInt 5403)
                       (<["res_ceilometer_eth0_vip" := "ocf:heartbeat:IPaddr2"]>
                          (base_resources NEW_RES_KEY))
                       (<["res_ceilometer_eth0_vip" :=
                            vip_resource_params "10.5.100.1" (Some "255.255.255.0") "eth0"]>
                          (base_resource_params NEW_RES_KEY None))
                       [LEGACY_RES_KEY]) ]) as E by (vm_compute; reflexivity).
  split; [exact E|].
  intros (settings & H & _). rewrite E in H. discriminate H.
Qed.

(** ** The service resource key and the amqp port *)

Lemma not_vip_key key :
  key = NEW_RES_KEY \/ key = LEGACY_RES_KEY ->
  forall iface, key <> vip_resource_key iface.
Proof.
  intros Hkey iface E. destruct (vip_resource_key_fresh iface) as (_ & H1 & H2).
  destruct Hkey; congruence.
Qed.

(** C5: when the installed generation compares below liberty (its index
    [i] in the release table is below liberty's index [j]), a returning
    [ha_joined] publishes an empty deletion list and, without DNS HA, a
    resource map that has the service resource under the legacy key and
    nothing under the new key; when the generation is liberty or later, the
    deletion list is the legacy key and the service resource is under the
    new key, with nothing under the legacy key.  With DNS HA the maps with
    that key are what the parameter builder is handed. *)
Theorem ha_joined_resource_key
    (w : World) (st st' : State) (relation_id : option string) (i j : nat) :
  index (w_os_release w (trace st ++ [c_get_hacluster_config]) "ceilometer-common")
        (OPENSTACK_RELEASES w) = Some i ->
  index "liberty" (OPENSTACK_RELEASES w) = Some j ->
  ha_joined relation_id w st = (Ret tt, st') ->
  exists earlier settings resources,
    trace st' = trace st ++ earlier ++ [c_relation_set relation_id settings] /\
    settings !! "resources" = Some (VDict resources) /\
    (i < j ->
     settings !! "delete_resources" = Some (VList []) /\
     (truthy (w_config w "dns-ha") = false ->
      resources !! LEGACY_RES_KEY = Some "ocf:openstack:ceilometer-agent-central" /\
      resources !! NEW_RES_KEY = None) /\
     (truthy (w_config w "dns-ha") = true ->
      c_update_dns_ha_resource_params relation_id
        (base_resources LEGACY_RES_KEY)
        (base_resource_params LEGACY_RES_KEY (ssl_port_of_last_unit w)) ∈ earlier)) /\
    (j <= i ->
     settings !! "delete_resources" = Some (VList [LEGACY_RES_KEY]) /\
     (truthy (w_config w "dns-ha") = false ->
      resources !! NEW_RES_KEY = Some "ocf:openstack:ceilometer-polling" /\
      resources !! LEGACY_RES_KEY = None) /\
     (truthy (w_config w "dns-ha") = true ->
      c_update_dns_ha_resource_params relation_id
        (base_resources NEW_RES_KEY)
        (base_resource_params NEW_RES_KEY (ssl_port_of_last_unit w)) ∈ earlier)).
Proof.
  intros Hi Hj H.
  apply ha_joined_published in H
      as (i' & j' & earlier & maps & bindiface & mcastport
          & Hi' & Hj' & Htrace & Hvip & Hdnsb).
  rewrite Hi in Hi'. rewrite Hj in Hj'. injection Hi' as <-. injection Hj' as <-.
  eexists earlier, _, maps.1. split; [exact Htrace|].
  split; [reflexivity|].
  split.
  - intros Hlt. apply Nat.leb_gt in Hlt. rewrite Hlt in Hvip, Hdnsb |- *.
    split; [reflexivity|]. split; [|exact Hdnsb].
    intros Hdns. destruct (Hvip Hdns) as [_ Hk].
    destruct (Hk LEGACY_RES_KEY (not_vip_key _ (or_intror eq_refl))) as [-> _].
    destruct (Hk NEW_RES_KEY (not_vip_key _ (or_introl eq_refl))) as [-> _].
    split; reflexivity.
  - intros Hle. apply Nat.leb_le in Hle. rewrite Hle in Hvip, Hdnsb |- *.
    split; [reflexivity|]. split; [|exact Hdnsb].
    intros Hdns. destruct (Hvip Hdns) as [_ Hk].
    destruct (Hk LEGACY_RES_KEY (not_vip_key _ (or_intror eq_refl))) as [-> _].
    destruct (Hk NEW_RES_KEY (not_vip_key _ (or_introl eq_refl))) as [-> _].
    split; reflexivity.
Qed.

(** C9: the port [ha_joined] reads is the [ssl_port] of the last amqp unit
    enumerated over all amqp relations, whatever earlier units advertised.
    When that unit advertises a non-empty port, the parameters of the
    service resource are the text [params amqp_server_port="<port>" op
    monitor interval="30s"]; when it advertises none, or there is no amqp
    unit, they are the plain [op monitor interval="30s"].  A returning
    [ha_joined] publishes the service resource with these parameters
    without DNS HA, and hands them to the parameter builder with DNS HA. *)
Theorem ha_joined_last_amqp_port
    (w : World) (st st' : State) (relation_id : option string) (i j : nat) :
  index (w_os_release w (trace st ++ [c_get_hacluster_config]) "ceilometer-common")
        (OPENSTACK_RELEASES w) = Some i ->
  index "liberty" (OPENSTACK_RELEASES w) = Some j ->
  ha_joined relation_id w st = (Ret tt, st') ->
  read_amqp_ssl_port w st = (Ret (ssl_port_of_last_unit w), st) /\
  exists earlier settings resource_params handed,
    trace st' = trace st ++ earlier ++ [c_relation_set relation_id settings] /\
    settings !! "resource_params" = Some (VDict resource_params) /\
    (truthy (w_config w "dns-ha") = false -> handed = resource_params) /\
    (truthy (w_config w "dns-ha") = true ->
     exists resources,
       c_update_dns_ha_resource_params relation_id resources handed ∈ earlier) /\
    handed !! (if Nat.leb j i then "res_ceilometer_polling"
               else "res_ceilometer_agent_central")
    = Some
        (match ssl_port_of_last_unit w with
         | Some port =>
             if String.eqb port EmptyString
             then "op monitor interval=" +:+ quote_mark +:+ "30s" +:+ quote_mark
             else "params amqp_server_port=" +:+ quote_mark +:+ port +:+ quote_mark
                  +:+ " op monitor interval=" +:+ quote_mark +:+ "30s" +:+ quote_mark
         | None => "op monitor interval=" +:+ quote_mark +:+ "30s" +:+ quote_mark
         end).
Proof.
  intros Hi Hj H. split; [apply read_amqp_ssl_port_run|].
  apply ha_joined_published in H
      as (i' & j' & earlier & maps & bindiface & mcastport
          & Hi' & Hj' & Htrace & Hvip & Hdnsb).
  rewrite Hi in Hi'. rewrite Hj in Hj'. injection Hi' as <-. injection Hj' as <-.
  assert (Hkey : (if Nat.leb j i then NEW_RES_KEY else LEGACY_RES_KEY) = NEW_RES_KEY
                 \/ (if Nat.leb j i then NEW_RES_KEY else LEGACY_RES_KEY) = LEGACY_RES_KEY)
    by (destruct (Nat.leb j i); auto).
  assert (Htext :
            base_resource_params (if Nat.leb j i then NEW_RES_KEY else LEGACY_RES_KEY)
                                 (ssl_port_of_last_unit w)
            !! (if Nat.leb j i then "res_ceilometer_polling"
                else "res_ceilometer_agent_central")
            = Some
                (match ssl_port_of_last_unit w with
                 | Some port =>
                     if String.eqb port EmptyString
                     then "op monitor interval=" +:+ quote_mark +:+ "30s" +:+ quote_mark
                     else "params amqp_server_port=" +:+ quote_mark +:+ port +:+ quote_mark
                          +:+ " op monitor interval=" +:+ quote_mark +:+ "30s" +:+ quote_mark
                 | None => "op monitor interval=" +:+ quote_mark +:+ "30s" +:+ quote_mark
                 end)).
  { rewrite base_resource_params_text.
    change "res_ceilometer_polling" with NEW_RES_KEY.
    change "res_ceilometer_agent_central" with LEGACY_RES_KEY.
    apply lookup_insert_eq. }
  destruct (truthy (w_config w "dns-ha")).
  - eexists earlier, _, maps.2,
            (base_resource_params (if Nat.leb j i then NEW_RES_KEY else LEGACY_RES_KEY)
                                  (ssl_port_of_last_unit w)).
    split; [exact Htrace|].
    split; [reflexivity|]. split; [intros [=]|].
    split; [intros _; eexists; by apply Hdnsb|]. exact Htext.
  - destruct (Hvip eq_refl) as [_ Hk].
    destruct (Hk _ (not_vip_key _ Hkey)) as [_ Hp].
    eexists earlier, _, maps.2, maps.2. split; [exact Htrace|].
    split; [reflexivity|]. split; [done|]. split; [intros [=]|].
    change "res_ceilometer_polling" with NEW_RES_KEY.
    change "res_ceilometer_agent_central" with LEGACY_RES_KEY.
    rewrite Hp. exact Htext.
Qed.

Lemma ha_joined_last_amqp_port_witness :
  (ssl_port_of_last_unit ha_world_ssl = Some "5671" /\
   exists earlier settings resource_params,
     trace (ha_joined None ha_world_ssl initial_state).2
     = trace initial_state ++ earlier ++ [c_relation_set None settings] /\
     settings !! "resource_params" = Some (VDict resource_params) /\
     resource_params !! "res_ceilometer_polling"
     = Some ("params amqp_server_port=" +:+ quote_mark +:+ "5671" +:+ quote_mark
             +:+ " op monitor interval=" +:+ quote_mark +:+ "30s" +:+ quote_mark)) /\
  (ssl_port_of_last_unit ha_world_amqp = None /\
   w_relation_get ha_world_amqp "ssl_port" (Some "rabbitmq-server/0") (Some "amqp:3")
   = Some "5671" /\
   exists earlier settings resource_params,
     trace ha_run_amqp.2
     = trace initial_state ++ earlier ++ [c_relation_set None settings] /\
     settings !! "resource_params" = Some (VDict resource_params) /\
     resource_params !! "res_ceilometer_polling"
     = Some ("op monitor interval=" +:+ quote_mark +:+ "30s" +:+ quote_mark)) /\
  (exists earlier resources handed,
     (exists settings,
         trace (ha_joined None ha_world_dns initial_state).2
         = trace initial_state ++ earlier ++ [c_relation_set None settings]) /\
     c_update_dns_ha_resource_params None resources handed ∈ earlier /\
     handed !! "res_ceilometer_polling"
     = Some ("params amqp_server_port=" +:+ quote_mark +:+ "5671" +:+ quote_mark
             +:+ " op monitor interval=" +:+ quote_mark +:+ "30s" +:+ quote_mark)).
Proof.
  split; [|split].
  - split; [reflexivity|].
    destruct (ha_joined_last_amqp_port ha_world_ssl initial_state
                (ha_joined None ha_world_ssl initial_state).2 None 4 3)
      as (_ & earlier & settings & resource_params & handed
          & Htrace & Hparams & Hplain & _ & Htext).
    + reflexivity.
    + reflexivity.
    + vm_compute. reflexivity.
    + rewrite (Hplain eq_refl) in Htext.
      exists earlier, settings, resource_params. repeat split; assumption.
  - split; [reflexivity|]. split; [reflexivity|].
    destruct (ha_joined_last_amqp_port ha_world_amqp initial_state ha_run_amqp.2 None 4 3)
      as (_ & earlier & settings & resource_params & handed
          & Htrace & Hparams & Hplain & _ & Htext).
    + reflexivity.
    + reflexivity.
    + vm_compute. reflexivity.
    + rewrite (Hplain eq_refl) in Htext.
      exists earlier, settings, resource_params. repeat split; assumption.
  - destruct (ha_joined_last_amqp_port ha_world_dns initial_state
                (ha_joined None ha_world_dns initial_state).2 None 4 3)
      as (_ & earlier & settings & resource_params & handed
          & Htrace & _ & _ & Hdns & Htext).
    + reflexivity.
    + reflexivity.
    + vm_compute. reflexivity.
    + destruct (Hdns eq_refl) as [resources Hin].
      exists earlier, resources, handed.
      split; [by exists settings|]. split; assumption.
Defined.

Lemma ha_joined_resource_key_witness :
  (exists earlier settings resources,
      trace (ha_joined None ha_world_kilo initial_state).2
      = trace initial_state ++ earlier ++ [c_relation_set None settings] /\
      settings !! "resources" = Some (VDict resources) /\
      settings !! "delete_resources" = Some (VList []) /\
      resources !! LEGACY_RES_KEY = Some "ocf:openstack:ceilometer-agent-central" /\
      resources !! NEW_RES_KEY = None) /\
  (exists earlier settings resources,
      trace (ha_joined None ha_world initial_state).2
      = trace initial_state ++ earlier ++ [c_relation_set None settings] /\
      settings !! "resources" = Some (VDict resources) /\
      settings !! "delete_resources" = Some (VList [LEGACY_RES_KEY]) /\
      resources !! NEW_RES_KEY = Some "ocf:openstack:ceilometer-polling" /\
      resources !! LEGACY_RES_KEY = None).
Proof.
  split.
  - destruct (ha_joined_resource_key ha_world_kilo initial_state
                (ha_joined None ha_world_kilo initial_state).2 None 2 3)
      as (earlier & settings & resources & Htrace & Hres & Hlt & _).
    + reflexivity.
    + reflexivity.
    + vm_compute. reflexivity.
    + destruct Hlt as (Hdel & Hkeys & _); [lia|].
      destruct Hkeys as [Hold Hnew]; [reflexivity|].
      exists earlier, settings, resources. repeat split; assumption.
  - destruct (ha_joined_resource_key ha_world initial_state
                (ha_joined None ha_world initial_state).2 None 4 3)
      as (earlier & settings & resources & Htrace & Hres & _ & Hle).
    + reflexivity.
    + reflexivity.
    + vm_compute. reflexivity.
    + destruct Hle as (Hdel & Hkeys & _); [lia|].
      destruct Hkeys as [Hnew Hold]; [reflexivity|].
      exists earlier, settings, resources. repeat split; assumption.
Defined.

(** ** [configure_https] *)

Ltac collect_calls :=
  repeat match goal with
         | |- context [record_call ?c ?s] =>
             lazymatch s with
             | record_calls _ _ => rewrite (record_calls_record _ c)
             | record_call _ _ => fail
             | _ => change (record_call c s) with (record_calls [c] s)
             end
         end;
  cbn [app].

(** What follows the site toggle in [configure_https] neither toggles the
    site again nor asks for the complete contexts again. *)
Lemma after_toggle_respects w (r : cmd_result) (cmd : list string) :
  respects (extends_by (fun c => ~ toggles_site c)) w
    (match r with
     | Exited 0 => ret tt
     | Exited rc => raise (CalledProcessError rc cmd)
     | NotStarted => raise (OSError (Py.join " " cmd))
     end ;;
     paused <- is_unit_paused_set ;;
     if negb paused
     then
       try_except
         (subprocess_check_call ["service"; "apache2"; "reload"])
         (fun e =>
            match e with
            | CalledProcessError _ _ =>
                Some (_ <- subprocess_call ["service"; "apache2"; "restart"] ;; ret tt)
            | _ => None
            end)
     else ret tt).
Proof.
  respects_with (extends_by_record (fun c => ~ toggles_site c))
                (fun rid s st => extends_by_publish (fun c => ~ toggles_site c) rid s st);
    try done;
    try (intros [H|[H|H]]; discriminate H).
Qed.

Lemma toggle_then_rest w st site :
  exists rest,
    Forall (fun c => ~ toggles_site c) rest /\
    trace ((subprocess_check_call site ;;
            paused <- is_unit_paused_set ;;
            if negb paused
            then
              try_except
                (subprocess_check_call ["service"; "apache2"; "reload"])
                (fun e =>
                   match e with
                   | CalledProcessError _ _ =>
                       Some (_ <- subprocess_call ["service"; "apache2"; "restart"] ;;
                             ret tt)
                   | _ => None
                   end)
            else ret tt) w st).2
    = trace st ++ c_check_call site :: rest.
Proof.
  unfold subprocess_check_call at 1. rewrite bind_assoc, bind_query.
  destruct (after_toggle_respects w (w_run w (trace st) site) site
              (record_call (c_check_call site) st)) as (rest & Hrest & Hok).
  exists rest. split; [exact Hok|]. rewrite Hrest. cbn. by rewrite <- app_assoc.
Qed.

(** C7: on every call of [configure_https] that gets past the rendering of
    the configuration files, the complete contexts are asked for once, at
    that moment, and the site is enabled exactly when [https] is in the
    answer and disabled otherwise; nothing the function does afterwards
    toggles the site or asks again. *)
Theorem configure_https_toggle (w : World) (st : State) :
  w_fault w (trace st) c_write_all = None ->
  exists rest,
    Forall (fun c => ~ toggles_site c) rest /\
    ("https" ∈ w_complete_contexts w (trace st ++ [c_write_all]) ->
     trace (configure_https w st).2
     = trace st ++ [c_write_all; c_complete_contexts; c_check_call a2ensite] ++ rest) /\
    ("https" ∉ w_complete_contexts w (trace st ++ [c_write_all]) ->
     trace (configure_https w st).2
     = trace st ++ [c_write_all; c_complete_contexts; c_check_call a2dissite] ++ rest).
Proof.
  intros Hw. unfold configure_https, CONFIGS_write_all, CONFIGS_complete_contexts.
  rewrite bind_fallible, bind_query by done.
  set (s2 := record_call c_complete_contexts (record_call c_write_all st)).
  change (trace (record_call c_write_all st)) with (trace st ++ [c_write_all]).
  destruct (bool_decide ("https" ∈ w_complete_contexts w (trace st ++ [c_write_all])))
    eqn:Hc;
    [apply bool_decide_eq_true in Hc|apply bool_decide_eq_false in Hc]; cbv iota.
  - destruct (toggle_then_rest w s2 ["a2ensite"; "openstack_https_frontend"])
      as (rest & Hok & Hrest).
    exists rest. split; [exact Hok|]. split; [|done]. intros _.
    rewrite Hrest. cbn. by rewrite <- !app_assoc.
  - destruct (toggle_then_rest w s2 ["a2dissite"; "openstack_https_frontend"])
      as (rest & Hok & Hrest).
    exists rest. split; [exact Hok|]. split; [done|]. intros _.
    rewrite Hrest. cbn. by rewrite <- !app_assoc.
Qed.

Lemma configure_https_toggle_witness :
  exists rest,
    Forall (fun c => ~ toggles_site c) rest /\
    ("https" ∈ w_complete_contexts https_once_world
                 (trace after_first_https_call ++ [c_write_all]) ->
     trace (configure_https https_once_world after_first_https_call).2
     = trace after_first_https_call
       ++ [c_write_all; c_complete_contexts; c_check_call a2ensite] ++ rest) /\
    ("https" ∉ w_complete_contexts https_once_world
                 (trace after_first_https_call ++ [c_write_all]) ->
     trace (configure_https https_once_world after_first_https_call).2
     = trace after_first_https_call
       ++ [c_write_all; c_complete_contexts; c_check_call a2dissite] ++ rest).
Proof.
  apply (configure_https_toggle https_once_world after_first_https_call).
  reflexivity.
Defined.

(** Two calls in a row on a unit whose [https] fragment stops being
    complete in between: the first enables the site, the second disables it. *)
Example configure_https_not_cached :
  trace ((configure_https ;; configure_https) https_once_world initial_state).2
  = [ c_write_all; c_complete_contexts; c_check_call a2ensite;
      c_is_unit_paused_set; c_check_call apache_reload;
      c_write_all; c_complete_contexts; c_check_call a2dissite;
      c_is_unit_paused_set; c_check_call apache_reload ].
Proof. vm_compute. reflexivity. Qed.

(** C3, as the code has it: when the unit is not paused and the site
    toggle succeeded, the reload is attempted first; the restart is issued
    only if the reload exits with a non-zero status; and then the exit
    status of the restart is ignored, so that a restart that fails does not
    raise.  Only a command that cannot be started at all raises. *)
Theorem configure_https_reload_then_restart
    (w : World) (st : State) (reload restart : cmd_result) :
  (forall h c, w_fault w h c = None) ->
  (forall h, w_is_unit_paused_set w h = false) ->
  (forall h, w_run w h a2ensite = Exited 0) ->
  (forall h, w_run w h a2dissite = Exited 0) ->
  (forall h, w_run w h apache_reload = reload) ->
  (forall h, w_run w h apache_restart = restart) ->
  exists site,
    (site = "a2ensite" \/ site = "a2dissite") /\
    configure_https w st =
      match reload, restart with
      | Exited 0, _ =>
          (Ret tt,
           record_calls [c_write_all; c_complete_contexts;
                         c_check_call [site; "openstack_https_frontend"];
                         c_is_unit_paused_set; c_check_call apache_reload] st)
      | NotStarted, _ =>
          (Raise (OSError "service apache2 reload"),
           record_calls [c_write_all; c_complete_contexts;
                         c_check_call [site; "openstack_https_frontend"];
                         c_is_unit_paused_set; c_check_call apache_reload] st)
      | Exited _, Exited _ =>
          (Ret tt,
           record_calls [c_write_all; c_complete_contexts;
                         c_check_call [site; "openstack_https_frontend"];
                         c_is_unit_paused_set; c_check_call apache_reload;
                         c_subprocess_call apache_restart] st)
      | Exited _, NotStarted =>
          (Raise (OSError "service apache2 restart"),
           record_calls [c_write_all; c_complete_contexts;
                         c_check_call [site; "openstack_https_frontend"];
                         c_is_unit_paused_set; c_check_call apache_reload;
                         c_subprocess_call apache_restart] st)
      end.
Proof.
  intros Hfault Hpaused Hen Hdis Hreload Hrestart.
  unfold a2ensite in Hen. unfold a2dissite in Hdis.
  unfold configure_https, CONFIGS_write_all, CONFIGS_complete_contexts.
  rewrite bind_fallible, bind_query by done.
  exists (if bool_decide ("https" ∈ w_complete_contexts w (trace (record_call c_write_all st)))
          then "a2ensite" else "a2dissite").
  split; [destruct (bool_decide _); auto|].
  destruct (bool_decide _); cbv iota;
    unfold subprocess_check_call at 1; rewrite bind_assoc, bind_query, ?Hen, ?Hdis, bind_ret;
    unfold is_unit_paused_set; rewrite bind_query, Hpaused; cbn [negb];
    unfold try_except, subprocess_check_call, subprocess_call;
    rewrite !bind_query; unfold apache_reload, apache_restart in *;
    rewrite Hreload;
    destruct reload as [[| |]|]; cbn;
    rewrite ?bind_assoc, ?bind_query, ?Hrestart;
    try destruct restart; cbn;
    collect_calls; reflexivity.
Qed.

Lemma configure_https_reload_then_restart_witness :
  exists site,
    (site = "a2ensite" \/ site = "a2dissite") /\
    configure_https apache_down_world initial_state =
      (Ret tt,
       record_calls [c_write_all; c_complete_contexts;
                     c_check_call [site; "openstack_https_frontend"];
                     c_is_unit_paused_set; c_check_call apache_reload;
                     c_subprocess_call apache_restart] initial_state).
Proof.
  apply (configure_https_reload_then_restart apache_down_world initial_state
           (Exited 1) (Exited 1)); reflexivity.
Defined.

(** C3 as the spec states it fails, a failing fallback restart does not
    propagate: when both
    the reload and the restart exit with status 1, [configure_https]
    returns normally. *)
Lemma configure_https_ignores_failed_restart :
  w_run apache_down_world
        [c_write_all; c_complete_contexts; c_check_call a2dissite;
         c_is_unit_paused_set; c_check_call apache_reload]
        apache_restart = Exited 1 /\
  configure_https apache_down_world initial_state =
    (Ret tt,
     record_calls [c_write_all; c_complete_contexts; c_check_call a2dissite;
                   c_is_unit_paused_set; c_check_call apache_reload;
                   c_subprocess_call apache_restart] initial_state) /\
  ~ (exists e, (configure_https apache_down_world initial_state).1 = Raise e).
Proof.
  split; [reflexivity|].
  split; [vm_compute; reflexivity|].
  intros [e He]. vm_compute in He. discriminate He.
Qed.

(** ** Dispatch and the restart coordinator *)

Lemma bind_unit_ret (m : M unit) w st : bind m (fun _ => ret tt) w st = m w st.
Proof. unfold bind. by destruct (m w st) as [[[]|e] st1]. Qed.

(** An event with exactly one registered handler runs that handler. *)
Lemma execute_single table (args : list string) (handler : M unit) w st :
  registered table (Py.basename (default "" (head args))) = [handler] ->
  execute table args w st = handler w st.
Proof.
  intros H. unfold execute. rewrite H. cbn [for_each]. apply bind_unit_ret.
Qed.

Lemma restart_loop stopstart svcs w st :
  for_each svcs (restart_service stopstart) w st
  = (Ret tt, record_calls (restart_events stopstart svcs) st).
Proof.
  revert st. induction svcs as [|svc svcs IH]; intros st.
  - by rewrite record_calls_nil.
  - cbn [for_each]. unfold bind at 1, restart_service at 1.
    destruct stopstart; cbn; rewrite IH; unfold record_calls; cbn;
      by rewrite <- !app_assoc.
Qed.

(** The restart coordinator around a handler: the snapshot, the handler
    with its own outcome, the comparison and the restarts. *)
Lemma restart_on_change_run {A} stopstart (f : M A) w st :
  restart_on_change stopstart f w st =
  ((f w (record_call c_restart_on_change_snapshot st)).1,
   record_calls
     (c_restart_on_change_compare
      :: restart_events stopstart
           (remove_dups
              (w_changed_services w
                 (trace (f w (record_call c_restart_on_change_snapshot st)).2))))
     (f w (record_call c_restart_on_change_snapshot st)).2).
Proof.
  unfold restart_on_change. rewrite bind_emit. unfold try_finally.
  destruct (f w _) as [r st1]. cbn [fst snd].
  rewrite bind_query, restart_loop. by rewrite record_calls_cons.
Qed.

Lemma restart_events_only_restart svcs :
  Forall (fun c => exists svc, c = c_service_restart svc) (restart_events false svcs).
Proof.
  induction svcs as [|svc svcs IH]; [constructor|].
  cbn. constructor; [by exists svc|exact IH].
Qed.

(** C8: a dispatch of amqp-relation-departed in which the [amqp] fragment
    is not among the complete contexts returns normally after asking for
    the complete contexts once and logging once; between the snapshot and
    the comparison of the restart coordinator nothing else happens, in
    particular the configuration files are not rendered and nothing is
    retried. *)
Theorem amqp_departed_incomplete (w : World) (st : State) (hook : string) :
  Py.basename hook = "amqp-relation-departed" ->
  "amqp" ∉ w_complete_contexts w (trace st ++ [c_restart_on_change_snapshot]) ->
  exists restarts,
    execute hooks [hook] w st =
      (Ret tt,
       record_calls
         ([c_restart_on_change_snapshot; c_complete_contexts;
           c_log "amqp relation incomplete. Peer not ready?";
           c_restart_on_change_compare] ++ restarts) st) /\
    Forall (fun c => exists svc, c = c_service_restart svc) restarts.
Proof.
  intros Hhook Hamqp.
  rewrite (execute_single hooks [hook] amqp_departed)
    by (change (default "" (head [hook])) with hook; rewrite Hhook; reflexivity).
  unfold amqp_departed. rewrite restart_on_change_run.
  unfold CONFIGS_complete_contexts. rewrite bind_query.
  cbn [record_call trace]. rewrite bool_decide_eq_false_2 by done.
  cbn [negb log emit fst snd trace].
  eexists. split; [|apply restart_events_only_restart].
  unfold record_calls. cbn. rewrite <- !app_assoc. reflexivity.
Qed.

Lemma amqp_departed_incomplete_witness :
  exists restarts,
    execute hooks ["hooks/amqp-relation-departed"] ha_world initial_state =
      (Ret tt,
       record_calls
         ([c_restart_on_change_snapshot; c_complete_contexts;
           c_log "amqp relation incomplete. Peer not ready?";
           c_restart_on_change_compare] ++ restarts) initial_state) /\
    Forall (fun c => exists svc, c = c_service_restart svc) restarts.
Proof.
  apply (amqp_departed_incomplete ha_world initial_state "hooks/amqp-relation-departed").
  - reflexivity.
  - vm_compute. apply not_elem_of_nil.
Defined.

(** ** The shared secret *)

#[local] Instance keeps_published_refl secret : Reflexive (keeps_published secret).
Proof. by intros st H. Qed.

#[local] Instance keeps_published_trans secret : Transitive (keeps_published secret).
Proof. intros st1 st2 st3 H1 H2 H. by apply H2, H1. Qed.

Lemma keeps_published_record secret c st :
  True -> keeps_published secret st (record_call c st).
Proof. by intros _ H. Qed.

Lemma keeps_published_publish secret rid settings st :
  True -> keeps_published secret st (publish rid settings st).
Proof. by intros _ H. Qed.

Ltac published_respected secret :=
  respects_with (keeps_published_record secret) (keeps_published_publish secret);
  try exact I.

(** Lines 259-260 of [cluster_joined]: a leader that has published its
    secret publishes the same value again. *)
Lemma republish_respects secret w :
  respects (keeps_published secret) w
    (s <- get_shared_secret ;; peer_store "shared_secret" s).
Proof.
  intros st [Hpeer Hlocal].
  unfold get_shared_secret. rewrite bind_assoc, bind_emit.
  unfold bind. cbn [record_call secret_file]. rewrite Hlocal. cbn.
  split; [apply lookup_insert_eq|done].
Qed.

(** Lines 282-286 of [cluster_changed]: a unit that has published its
    secret finds its own value in the peer storage and keeps it. *)
Lemma sync_respects secret w (k : M unit) :
  respects (keeps_published secret) w k ->
  respects (keeps_published secret) w
    (shared_secret <- peer_retrieve "shared_secret" ;;
     (match shared_secret with
      | None => log "waiting for shared secret to be provided by leader"
      | Some s =>
          if String.eqb (Py.strip s) ""
          then log "waiting for shared secret to be provided by leader"
          else
            local <- get_shared_secret ;;
            if negb (String.eqb s local)
            then set_shared_secret s
            else ret tt
      end) ;;
     k).
Proof.
  intros Hk st Hpub. pose proof Hpub as [Hpeer Hlocal].
  unfold bind at 1, peer_retrieve. rewrite Hpeer.
  destruct (String.eqb (Py.strip secret) "").
  - unfold log. rewrite bind_emit. by apply Hk.
  - unfold get_shared_secret. rewrite !bind_assoc, bind_emit.
    unfold bind at 1. cbn [record_call secret_file]. rewrite Hlocal.
    rewrite String.eqb_refl. cbn [negb]. rewrite bind_ret. by apply Hk.
Qed.

Lemma cluster_joined_respects secret w relation_id :
  respects (keeps_published secret) w (cluster_joined relation_id).
Proof.
  unfold cluster_joined, restart_on_change.
  apply (respects_bind (keeps_published secret)); [published_respected secret|].
  intros _. apply (respects_try_finally (keeps_published secret));
    [|published_respected secret].
  apply (respects_bind (keeps_published secret)); [published_respected secret|].
  intros _.
  apply (respects_bind (keeps_published secret)); [published_respected secret|].
  intros leader.
  apply (respects_bind (keeps_published secret)); [|published_respected secret].
  destruct leader; [apply republish_respects|published_respected secret].
Qed.

Lemma cluster_changed_respects secret w :
  respects (keeps_published secret) w cluster_changed.
Proof.
  unfold cluster_changed, restart_on_change.
  apply (respects_bind (keeps_published secret)); [published_respected secret|].
  intros _. apply (respects_try_finally (keeps_published secret));
    [|published_respected secret].
  apply sync_respects. published_respected secret.
Qed.

(** Whatever cluster-relation event the unit handles, as leader or not, a
    secret it has published stays published. *)
Lemma cluster_event_keeps_published secret w st hook :
  cluster_event (Py.basename hook) ->
  secret_published secret st ->
  secret_published secret (execute hooks [hook] w st).2.
Proof.
  intros [H|[H|H]] Hpub.
  - rewrite (execute_single hooks [hook] (cluster_joined None))
      by (change (default "" (head [hook])) with hook; rewrite H; reflexivity).
    by apply cluster_joined_respects.
  - rewrite (execute_single hooks [hook] cluster_changed)
      by (change (default "" (head [hook])) with hook; rewrite H; reflexivity).
    by apply cluster_changed_respects.
  - rewrite (execute_single hooks [hook] cluster_changed)
      by (change (default "" (head [hook])) with hook; rewrite H; reflexivity).
    by apply cluster_changed_respects.
Qed.

(** A leader whose cluster-relation-joined handler returns has published
    its secret. *)
Lemma cluster_joined_publishes w st st' relation_id :
  w_is_elected_leader w "grp_ceilometer_vips" = true ->
  cluster_joined relation_id w st = (Ret tt, st') ->
  exists secret, secret_published secret st'.
Proof.
  intros Hleader H. unfold cluster_joined in H. rewrite restart_on_change_run in H.
  set (body := bind install_ceilometer_ocf _) in H.
  destruct (body w (record_call c_restart_on_change_snapshot st)) as [r st1] eqn:Hbody.
  cbn [fst snd] in H. inversion H; subst. clear H. unfold body in Hbody. clear body.
  unfold secret_published, record_calls. cbn [peer_db secret_file].
  apply bind_ret_inv in Hbody as ([] & st2 & _ & Hbody).
  unfold is_elected_leader in Hbody. rewrite bind_snapshot, Hleader in Hbody.
  apply bind_ret_inv in Hbody as ([] & st3 & Hpub & Hbody).
  assert (exists secret, secret_published secret st3) as [secret Hs3].
  { unfold get_shared_secret in Hpub. rewrite bind_assoc, bind_emit in Hpub.
    unfold bind in Hpub. cbn [record_call secret_file] in Hpub.
    destruct (secret_file st2) as [s|] eqn:Hsec; cbn in Hpub; inversion Hpub; subst;
      eexists; (split; [apply lookup_insert_eq|done]). }
  exists secret.
  assert (respects (keeps_published secret) w
            (CONFIGS_write_all ;;
             types <- snapshot ADDRESS_TYPES ;;
             settings <-
               for_fold types ∅
                 (fun settings addr_type =>
                    cidr <- config ("os-" +:+ addr_type +:+ "-network") ;;
                    address <- get_relation_ip addr_type cidr ;;
                    ret (if truthy_opt address
                         then <[addr_type +:+ "-address" := opt_value address]> settings
                         else settings)) ;;
             private <- get_relation_ip "cluster" VNone ;;
             relation_set relation_id
               (<["private-address" := opt_value private]> settings))) as Hrest
    by published_respected secret.
  specialize (Hrest st3 Hs3). by rewrite Hbody in Hrest.
Qed.

Lemma bind_peer_retrieve {B} (k : option string -> M B) key w st :
  bind (peer_retrieve key) k w st
  = k (peer_db st !! key) w (record_call (c_peer_retrieve key) st).
Proof. reflexivity. Qed.

Lemma bind_set_shared_secret {B} (k : unit -> M B) secret w st :
  bind (set_shared_secret secret) k w st
  = k tt w (mkState (trace st ++ [c_set_shared_secret secret]) (Some secret)
                    (peer_db st) (relations st)).
Proof. reflexivity. Qed.

Lemma bind_get_shared_secret {B} (k : string -> M B) w st :
  bind get_shared_secret k w st =
  match secret_file st with
  | Some s => k s w (record_call c_get_shared_secret st)
  | None =>
      k (w_uuid4 w (trace st ++ [c_get_shared_secret])) w
        (mkState
           (((trace st ++ [c_get_shared_secret]) ++ [c_uuid4])
            ++ [c_set_shared_secret (w_uuid4 w (trace st ++ [c_get_shared_secret]))])
           (Some (w_uuid4 w (trace st ++ [c_get_shared_secret])))
           (peer_db st) (relations st))
  end.
Proof.
  unfold get_shared_secret. rewrite bind_assoc, bind_emit.
  unfold bind at 1. cbn [record_call secret_file].
  destruct (secret_file st); reflexivity.
Qed.

(** Lines 282-286 of [cluster_changed] when the peer storage holds a
    non-blank secret: whatever the local copy was, it is the peer-stored
    value afterwards, and the peer storage is as it was. *)
Lemma sync_then w st peer (k : M unit) :
  peer_db st !! "shared_secret" = Some peer ->
  Py.strip peer <> "" ->
  exists st1,
    (shared_secret <- peer_retrieve "shared_secret" ;;
     (match shared_secret with
      | None => log "waiting for shared secret to be provided by leader"
      | Some s =>
          if String.eqb (Py.strip s) ""
          then log "waiting for shared secret to be provided by leader"
          else
            local <- get_shared_secret ;;
            if negb (String.eqb s local)
            then set_shared_secret s
            else ret tt
      end) ;;
     k) w st = k w st1 /\
    secret_file st1 = Some peer /\ peer_db st1 = peer_db st.
Proof.
  intros Hpeer Hblank. rewrite bind_peer_retrieve, Hpeer.
  destruct (String.eqb (Py.strip peer) "") eqn:E;
    [by apply String.eqb_eq in E|].
  rewrite bind_assoc, bind_get_shared_secret. cbn [record_call secret_file].
  destruct (secret_file st) as [local|] eqn:Hlocal.
  - destruct (String.eqb peer local) eqn:El; cbn [negb].
    + apply String.eqb_eq in El. subst local. rewrite bind_ret.
      eexists. split; [reflexivity|]. done.
    + rewrite bind_set_shared_secret. eexists. split; [reflexivity|]. done.
  - destruct (String.eqb peer _) eqn:El; cbn [negb].
    + apply String.eqb_eq in El. rewrite bind_ret.
      eexists. split; [reflexivity|]. cbn [secret_file peer_db]. by rewrite <- El.
    + rewrite bind_set_shared_secret. eexists. split; [reflexivity|]. done.
Qed.

Lemma follower_converges w st hook peer :
  Py.basename hook = "cluster-relation-changed"
  \/ Py.basename hook = "cluster-relation-departed" ->
  peer_db st !! "shared_secret" = Some peer ->
  Py.strip peer <> "" ->
  secret_published peer (execute hooks [hook] w st).2.
Proof.
  intros Hhook Hpeer Hblank.
  rewrite (execute_single hooks [hook] cluster_changed)
    by (change (default "" (head [hook])) with hook;
        destruct Hhook as [-> | ->]; reflexivity).
  unfold cluster_changed. rewrite restart_on_change_run. cbn [snd].
  unfold secret_published, record_calls. cbn [peer_db secret_file].
  destruct (sync_then w (record_call c_restart_on_change_snapshot st) peer
              CONFIGS_write_all Hpeer Hblank) as (st1 & -> & Hs & Hp).
  unfold CONFIGS_write_all, fallible.
  destruct (w_fault _ _ _); cbn; by rewrite Hp.
Qed.

(** C4: on a cluster-relation-changed or cluster-relation-departed event,
    if the peer-stored shared secret is non-blank and differs from the
    local copy, then after the handler the local copy is the peer-stored
    value; and a leader that handles cluster-relation-joined after it has
    published its secret leaves the published value as it is. *)
Theorem cluster_secret_convergence (w : World) (st : State) (hook secret : string) :
  (Py.basename hook = "cluster-relation-changed"
   \/ Py.basename hook = "cluster-relation-departed" ->
   peer_db st !! "shared_secret" = Some secret ->
   Py.strip secret <> "" ->
   secret_file st <> Some secret ->
   secret_file (execute hooks [hook] w st).2 = Some secret /\
   peer_db (execute hooks [hook] w st).2 !! "shared_secret" = Some secret) /\
  (Py.basename hook = "cluster-relation-joined" ->
   w_is_elected_leader w "grp_ceilometer_vips" = true ->
   secret_published secret st ->
   peer_db (execute hooks [hook] w st).2 !! "shared_secret" = Some secret).
Proof.
  split.
  - intros Hhook Hpeer Hblank _.
    by destruct (follower_converges w st hook secret Hhook Hpeer Hblank).
  - intros Hhook _ Hpub.
    by destruct (cluster_event_keeps_published secret w st hook
                   (or_introl Hhook) Hpub).
Qed.

Lemma cluster_secret_convergence_witness :
  (secret_file
     (execute hooks ["hooks/cluster-relation-changed"] follower_world follower_state).2
   = Some "leader-secret" /\
   peer_db
     (execute hooks ["hooks/cluster-relation-changed"] follower_world follower_state).2
     !! "shared_secret" = Some "leader-secret") /\
  peer_db
    (execute hooks ["hooks/cluster-relation-joined"] leader_world leader_state).2
    !! "shared_secret" = Some "leader-secret".
Proof.
  split.
  - apply (cluster_secret_convergence follower_world follower_state
             "hooks/cluster-relation-changed" "leader-secret").
    + left. reflexivity.
    + reflexivity.
    + discriminate.
    + discriminate.
  - apply (cluster_secret_convergence leader_world leader_state
             "hooks/cluster-relation-joined" "leader-secret").
    + reflexivity.
    + reflexivity.
    + split; reflexivity.
Defined.

(** ** The [__main__] block *)

Section NeverCalls.
Context (ok : call -> Prop) (w : World).

Lemma peer_retrieve_extends key :
  ok (c_peer_retrieve key) -> respects (extends_by ok) w (peer_retrieve key).
Proof. intros H st. by apply extends_by_record. Qed.

Lemma peer_store_extends key value :
  ok (c_peer_store key value) -> respects (extends_by ok) w (peer_store key value).
Proof. intros H st. exists [c_peer_store key value]. split; [done|by constructor]. Qed.

Lemma set_shared_secret_extends secret :
  ok (c_set_shared_secret secret) ->
  respects (extends_by ok) w (set_shared_secret secret).
Proof. intros H st. exists [c_set_shared_secret secret]. split; [done|by constructor]. Qed.

Lemma get_shared_secret_extends :
  ok c_get_shared_secret -> ok c_uuid4 -> (forall s, ok (c_set_shared_secret s)) ->
  respects (extends_by ok) w get_shared_secret.
Proof.
  intros H1 H2 H3 st. unfold get_shared_secret. rewrite bind_emit.
  cbn [record_call secret_file]. destruct (secret_file st).
  - by apply extends_by_record.
  - rewrite bind_query, bind_set_shared_secret.
    eexists [_; _; _]. cbn. rewrite <- !app_assoc. split; [done|].
    repeat constructor; auto.
Qed.
End NeverCalls.

(** Proof that a computation makes only calls acceptable to [ok]; the
    conditions on the calls are left to [side]. *)
Ltac extends_with side :=
  repeat
    (intros;
     lazymatch goal with
     | |- respects (extends_by ?ok) _ (peer_retrieve _) =>
         apply (peer_retrieve_extends ok)
     | |- respects (extends_by ?ok) _ (peer_store _ _) =>
         apply (peer_store_extends ok)
     | |- respects (extends_by ?ok) _ (set_shared_secret _) =>
         apply (set_shared_secret_extends ok)
     | |- respects (extends_by ?ok) _ get_shared_secret =>
         apply (get_shared_secret_extends ok)
     | |- respects (extends_by ?ok) _ _ =>
         respects_step (extends_by_record ok)
                       (fun rid s st (_ : True) => extends_by_publish ok rid s st)
     | |- True => exact I
     | |- _ => side
     end).

Lemma handlers_never_assess name handler w :
  (name, handler) ∈ hooks ->
  respects (extends_by (fun c => c <> c_assess_status)) w handler.
Proof.
  rewrite hooks_table. intros H.
  repeat (apply elem_of_cons in H as [[= _ ->]|H]; [extends_with discriminate|]).
  by apply elem_of_nil in H.
Qed.


Lemma registered_in_table table name handler :
  handler ∈ registered table name -> (name, handler) ∈ table.
Proof.
  unfold registered. intros H.
  apply list_elem_of_fmap in H as ([n h] & -> & H).
  apply list_elem_of_filter in H as [Hn H]. cbn in Hn. by subst.
Qed.

Lemma execute_never_assess w args :
  respects (extends_by (fun c => c <> c_assess_status)) w (execute hooks args).
Proof.
  unfold execute.
  set (name := Py.basename (default "" (head args))).
  assert (forall handlers,
             (forall h, h ∈ handlers -> (name, h) ∈ hooks) ->
             respects (extends_by (fun c => c <> c_assess_status)) w
               (for_each handlers (fun handler => handler))) as Hall.
  { induction handlers as [|h handlers IH]; intros Hin.
    - apply (respects_ret (extends_by _)).
    - apply (respects_bind (extends_by _)).
      + eapply handlers_never_assess, Hin. by left.
      + intros _. apply IH. intros h' Hh'. apply Hin. by right. }
  pose proof (registered_in_table hooks name) as Hreg.
  destruct (registered hooks name) as [|h handlers].
  - apply (respects_raise (extends_by _)).
  - apply Hall. exact Hreg.
Qed.

(** C1, as the code has it: the Status Reporter runs, as the last call of
    the invocation, when the dispatch returns or when the event is unknown
    (the one exception the top level catches); when a registered handler
    raises any other exception, that exception ends the invocation with a
    non-zero exit status and the Status Reporter is not called at all. *)
Theorem main_status_reporter (w : World) (st : State) (argv : list string) :
  (forall st1,
      execute hooks argv w st = (Ret tt, st1) ->
      main argv w st = assess_status w st1) /\
  (forall name st1,
      execute hooks argv w st = (Raise (UnregisteredHookError name), st1) ->
      main argv w st =
        assess_status w
          (record_call (c_log ("Unknown hook " +:+ name +:+ " - skipping.")) st1)) /\
  (forall e st1,
      execute hooks argv w st = (Raise e, st1) ->
      ~ is_unregistered e ->
      main argv w st = (Raise e, st1) /\
      exit_status (main argv w st).1 = 1%Z /\
      extends_by (fun c => c <> c_assess_status) st (main argv w st).2).
Proof.
  unfold main, bind, try_except. split; [|split].
  - intros st1 H. by rewrite H.
  - intros name st1 H. by rewrite H.
  - intros e st1 H Hne.
    pose proof (execute_never_assess w argv st) as Hext. rewrite H in Hext.
    rewrite H. destruct e; try (by repeat split).
    destruct Hne. by eexists.
Qed.

Lemma main_status_reporter_witness :
  main ["hooks/amqp-relation-departed"] render_fails_world initial_state
  = (Raise (Exception "write_all"),
     (execute hooks ["hooks/amqp-relation-departed"] render_fails_world
              initial_state).2) /\
  exit_status
    (main ["hooks/amqp-relation-departed"] render_fails_world initial_state).1 = 1%Z /\
  extends_by (fun c => c <> c_assess_status) initial_state
    (main ["hooks/amqp-relation-departed"] render_fails_world initial_state).2.
Proof.
  apply (main_status_reporter render_fails_world initial_state
           ["hooks/amqp-relation-departed"]).
  - vm_compute. reflexivity.
  - intros [name H]. discriminate H.
Defined.

(** C1 as the spec states it fails, the Status Reporter does not run
    after a failure: when rendering
    the configuration files fails in the amqp-relation-departed handler,
    the process exits with a non-zero status and [assess_status] is not
    among the calls of the invocation. *)
Lemma main_skips_status_after_failure :
  (execute hooks ["hooks/amqp-relation-departed"] render_fails_world initial_state).1
  = Raise (Exception "write_all") /\
  exit_status
    (main ["hooks/amqp-relation-departed"] render_fails_world initial_state).1 = 1%Z /\
  trace (main ["hooks/amqp-relation-departed"] render_fails_world initial_state).2
  = [c_restart_on_change_snapshot; c_complete_contexts; c_write_all;
     c_restart_on_change_compare] /\
  c_assess_status
    ∉ trace (main ["hooks/amqp-relation-departed"] render_fails_world initial_state).2.
Proof.
  assert (trace (main ["hooks/amqp-relation-departed"] render_fails_world
                      initial_state).2
          = [c_restart_on_change_snapshot; c_complete_contexts; c_write_all;
             c_restart_on_change_compare]) as E by (vm_compute; reflexivity).
  split; [vm_compute; reflexivity|]. split; [vm_compute; reflexivity|].
  split; [exact E|]. rewrite E. intros H.
  repeat (apply elem_of_cons in H as [H|H]; [discriminate H|]).
  by apply elem_of_nil in H.
Qed.

(** ** The Python built-ins on sample inputs *)

Example strip_ex : Py.strip "  a b  " = "a b".
Proof. reflexivity. Qed.

Example split_ex : Py.split " 10.0.0.1  10.0.0.2 " = ["10.0.0.1"; "10.0.0.2"].
Proof. reflexivity. Qed.

(** The unit separator (code 31) and the no-break space (code 160) are
    whitespace to [str.strip()] and [str.split()]. *)
Example strip_separator_ex :
  Py.strip (String "031" EmptyString) = EmptyString
  /\ Py.strip (String "160" "secret" +:+ String "031" EmptyString) = "secret".
Proof. split; reflexivity. Qed.

Example split_separator_ex :
  Py.split ("10.5.100.1" +:+ String "031" "10.99.0.1" +:+ String "160" "10.5.100.2")
  = ["10.5.100.1"; "10.99.0.1"; "10.5.100.2"].
Proof. reflexivity. Qed.

(** A handler is also reached under its own name and its dashed form, and
    no name has two handlers. *)
Example alias_ex :
  registered hooks "ha-changed" = [ha_changed]
  /\ registered hooks "ha_changed" = [ha_changed]
  /\ registered hooks "ha-relation-changed" = [ha_changed]
  /\ registered hooks "config-changed" = [config_changed]
  /\ registered hooks "install" = [install].
Proof. repeat split; reflexivity. Qed.

Example hooks_names_unique : NoDup hooks.*1.
Proof. apply (bool_decide_unpack _). vm_compute. exact I. Qed.

Example replace_ex :
  Py.replace (Py.replace LEGACY_RES_KEY "res_" "") "_" "-" = "ceilometer-agent-central"
  /\ Py.replace (Py.replace NEW_RES_KEY "res_" "") "_" "-" = "ceilometer-polling".
Proof. split; reflexivity. Qed.

Example dirname_ex :
  Py.dirname "/usr/lib/ocf/resource.d/openstack/ceilometer-polling"
  = "/usr/lib/ocf/resource.d/openstack".
Proof. reflexivity. Qed.

Example basename_ex : Py.basename "hooks/ha-relation-joined" = "ha-relation-joined".
Proof. reflexivity. Qed.

Example check_call_raises :
  (subprocess_check_call apache_reload apache_down_world initial_state).1
  = Raise (CalledProcessError 1 apache_reload).
Proof. reflexivity. Qed.

Example unknown_hook_is_skipped :
  main ["hooks/no-such-hook"] ha_world initial_state
  = (Ret tt,
     record_calls [c_log "Unknown hook no-such-hook - skipping."; c_assess_status]
                  initial_state).
Proof. vm_compute. reflexivity. Qed.
